(** * GP2YDustSensor: a shallow embedding of the Sharp GP2Y10xx driver

    The development follows [GP2YDustSensor.cpp] and [GP2YDustSensor.h].
    Fixed-width integers are [Z] with their wrap-around written out
    ([int] is taken to be 32 bits wide, as on the ESP8266 the driver
    targets), the C++ [float] is IEEE-754 binary32 (the Standard Library's
    [SpecFloat] at precision 24, every operation rounded to nearest even),
    the running-average buffer is a list updated by index, and the Arduino
    primitives [pinMode], [digitalWrite], [delayMicroseconds] and
    [analogRead] act on an explicit hardware state that records a trace. *)

From Stdlib Require Import ZArith Bool Lia.
From Stdlib Require Import Floats.SpecFloat.
From stdpp Require Import base list.

Local Open Scope Z_scope.

(** ** Fixed-width integers *)

Module Ints.

Definition to_uint8 (z : Z) : Z := z mod 256.
Definition to_uint16 (z : Z) : Z := z mod 65536.
Definition to_uint32 (z : Z) : Z := z mod 4294967296.

(** Conversion to [int16_t]: reduction modulo 2^16 into [-32768, 32767]. *)
Definition to_int16 (z : Z) : Z := (z + 32768) mod 65536 - 32768.

End Ints.

(** ** The C++ [float]: IEEE-754 binary32 *)

Module F32.

Definition prec : Z := 24.
Definition emax : Z := 128.

Definition f32 : Type := spec_float.

Definition add : f32 -> f32 -> f32 := SFadd prec emax.
Definition sub : f32 -> f32 -> f32 := SFsub prec emax.
Definition mul : f32 -> f32 -> f32 := SFmul prec emax.
Definition div : f32 -> f32 -> f32 := SFdiv prec emax.
Definition ltb : f32 -> f32 -> bool := SFltb.
Definition leb : f32 -> f32 -> bool := SFleb.

(** [a >= b] in C++ is [b <= a]; both are false on a NaN. *)
Definition geb (a b : f32) : bool := SFleb b a.

(** Integer to [float] conversion, rounding to nearest even. *)
Definition of_int (z : Z) : f32 := binary_normalize prec emax z 0 false.

(** A decimal literal [n / d] as the nearest binary32 number. *)
Definition lit (n d : Z) : f32 := div (of_int n) (of_int d).

Definition is_finite (x : f32) : bool :=
  match x with
  | S754_zero _ | S754_finite _ _ _ => true
  | _ => false
  end.

Definition infinity : f32 := S754_infinity false.

(** Truncation toward zero of a finite number; [None] on NaN and the
    infinities. *)
Definition trunc (x : f32) : option Z :=
  match x with
  | S754_zero _ => Some 0
  | S754_finite s m e => Some (cond_Zopp s (Z.shiftl (Zpos m) e))
  | _ => None
  end.

(** [float] to [uint16_t]: the fractional part is discarded; the
    conversion is undefined ([None]) when the truncated value is not
    representable in 16 unsigned bits. *)
Definition to_uint16 (x : f32) : option Z :=
  match trunc x with
  | Some t => if (0 <=? t) && (t <=? 65535) then Some t else None
  | None => None
  end.

(** [round] is the Arduino core's, not this repository's.  It rounds to
    the nearest integer, halfway cases away from zero; NaN and the
    infinities, which an average of 16-bit slots never is, go to 0. *)
Definition round (x : f32) : Z :=
  match x with
  | S754_finite s m e =>
      cond_Zopp s
        (if 0 <=? e then Z.shiftl (Zpos m) e
         else Z.shiftr (Zpos m + 2 ^ (- e - 1)) (- e))
  | _ => 0
  end.

End F32.

Import F32.

(** ** The Arduino primitives *)

Inductive level : Set := LOW | HIGH.

Inductive event : Set :=
  | PinMode (pin : Z)
  | DigitalWrite (pin : Z) (l : level)
  | DelayMicroseconds (us : Z)
  | AnalogRead (pin : Z) (value : Z).

(** The board as the driver sees it: [adc k] is what the [k]-th call of
    [analogRead] returns, [reads] counts the calls made so far and [trace]
    lists every primitive executed, oldest first. *)
Record hardware : Type := {
  adc : nat -> Z;
  reads : nat;
  trace : list event
}.

Definition emit (e : event) (hw : hardware) : hardware :=
  {| adc := adc hw; reads := reads hw; trace := trace hw ++ [e] |}.

Definition pinMode (pin : Z) (hw : hardware) : hardware :=
  emit (PinMode pin) hw.

Definition digitalWrite (pin : Z) (l : level) (hw : hardware) : hardware :=
  emit (DigitalWrite pin l) hw.

Definition delayMicroseconds (us : Z) (hw : hardware) : hardware :=
  emit (DelayMicroseconds us) hw.

Definition analogRead (pin : Z) (hw : hardware) : Z * hardware :=
  let v := adc hw (reads hw) in
  (v, {| adc := adc hw; reads := S (reads hw);
         trace := trace hw ++ [AnalogRead pin v] |}).

(** Number of samples taken and time spent in a trace.  A conversion by
    [analogRead] lasts [adc_us] microseconds (around 100 according to the
    comment in [readDustRawOnce]). *)
Fixpoint samples_in (t : list event) : Z :=
  match t with
  | [] => 0
  | AnalogRead _ _ :: t' => 1 + samples_in t'
  | _ :: t' => samples_in t'
  end.

Fixpoint elapsed_us (adc_us : Z) (t : list event) : Z :=
  match t with
  | [] => 0
  | DelayMicroseconds us :: t' => us + elapsed_us adc_us t'
  | AnalogRead _ _ :: t' => adc_us + elapsed_us adc_us t'
  | _ :: t' => elapsed_us adc_us t'
  end.

(** The sum of the next [k] conversions, each as the [uint16_t] that
    [readDustRawOnce] returns, from the [start]-th conversion on. *)
Fixpoint raw_sum (input : nat -> Z) (start k : nat) : Z :=
  match k with
  | O => 0
  | S k' => Ints.to_uint16 (input start) + raw_sum input (S start) k'
  end.

(** ** The sensor object *)

Inductive GP2YDustSensorType : Set := GP2Y1010AU0F | GP2Y1014AU0F.

(** The fields of [class GP2YDustSensor] that the code reads.  [maxAdc] and
    [runningAverageCounter] are declared and never used.  The buffer holds
    [runningAverageCount] slots of [int16_t]; it is [[]] when the running
    average is disabled and the pointer is left unset. *)
Record GP2YDustSensor : Type := {
  type : GP2YDustSensorType;
  ledOutputPin : Z;
  analogReadPin : Z;
  vRef : f32;
  zeroDustVoltage : f32;
  minDustVoltage : f32;
  minZeroDustVoltage : f32;
  maxZeroDustVoltage : f32;
  typZeroDustVoltage : f32;
  currentBaselineCandidate : f32;
  hasBaselineCandidate : bool;
  readCount : Z;
  calibrationFactor : f32;
  sensitivity : f32;
  runningAverageBuffer : list Z;
  runningAverageCount : Z;
  nextRunningAverageCounter : Z
}.

Definition BASELINE_CANDIDATE_MIN_READINGS : Z := 10.

(** Assignments to one field, [this->f = v]. *)
Definition set_zeroDustVoltage (v : f32) (s : GP2YDustSensor) : GP2YDustSensor :=
  {| type := type s; ledOutputPin := ledOutputPin s;
    analogReadPin := analogReadPin s; vRef := vRef s; zeroDustVoltage := v;
    minDustVoltage := minDustVoltage s;
    minZeroDustVoltage := minZeroDustVoltage s;
    maxZeroDustVoltage := maxZeroDustVoltage s;
    typZeroDustVoltage := typZeroDustVoltage s;
    currentBaselineCandidate := currentBaselineCandidate s;
    hasBaselineCandidate := hasBaselineCandidate s; readCount := readCount s;
    calibrationFactor := calibrationFactor s; sensitivity := sensitivity s;
    runningAverageBuffer := runningAverageBuffer s;
    runningAverageCount := runningAverageCount s;
    nextRunningAverageCounter := nextRunningAverageCounter s |}.

Definition set_minDustVoltage (v : f32) (s : GP2YDustSensor) : GP2YDustSensor :=
  {| type := type s; ledOutputPin := ledOutputPin s;
    analogReadPin := analogReadPin s; vRef := vRef s;
    zeroDustVoltage := zeroDustVoltage s; minDustVoltage := v;
    minZeroDustVoltage := minZeroDustVoltage s;
    maxZeroDustVoltage := maxZeroDustVoltage s;
    typZeroDustVoltage := typZeroDustVoltage s;
    currentBaselineCandidate := currentBaselineCandidate s;
    hasBaselineCandidate := hasBaselineCandidate s; readCount := readCount s;
    calibrationFactor := calibrationFactor s; sensitivity := sensitivity s;
    runningAverageBuffer := runningAverageBuffer s;
    runningAverageCount := runningAverageCount s;
    nextRunningAverageCounter := nextRunningAverageCounter s |}.

Definition set_currentBaselineCandidate (v : f32) (s : GP2YDustSensor) : GP2YDustSensor :=
  {| type := type s; ledOutputPin := ledOutputPin s;
    analogReadPin := analogReadPin s; vRef := vRef s;
    zeroDustVoltage := zeroDustVoltage s; minDustVoltage := minDustVoltage s;
    minZeroDustVoltage := minZeroDustVoltage s;
    maxZeroDustVoltage := maxZeroDustVoltage s;
    typZeroDustVoltage := typZeroDustVoltage s;
    currentBaselineCandidate := v;
    hasBaselineCandidate := hasBaselineCandidate s; readCount := readCount s;
    calibrationFactor := calibrationFactor s; sensitivity := sensitivity s;
    runningAverageBuffer := runningAverageBuffer s;
    runningAverageCount := runningAverageCount s;
    nextRunningAverageCounter := nextRunningAverageCounter s |}.

Definition set_hasBaselineCandidate (v : bool) (s : GP2YDustSensor) : GP2YDustSensor :=
  {| type := type s; ledOutputPin := ledOutputPin s;
    analogReadPin := analogReadPin s; vRef := vRef s;
    zeroDustVoltage := zeroDustVoltage s; minDustVoltage := minDustVoltage s;
    minZeroDustVoltage := minZeroDustVoltage s;
    maxZeroDustVoltage := maxZeroDustVoltage s;
    typZeroDustVoltage := typZeroDustVoltage s;
    currentBaselineCandidate := currentBaselineCandidate s;
    hasBaselineCandidate := v; readCount := readCount s;
    calibrationFactor := calibrationFactor s; sensitivity := sensitivity s;
    runningAverageBuffer := runningAverageBuffer s;
    runningAverageCount := runningAverageCount s;
    nextRunningAverageCounter := nextRunningAverageCounter s |}.

Definition set_readCount (v : Z) (s : GP2YDustSensor) : GP2YDustSensor :=
  {| type := type s; ledOutputPin := ledOutputPin s;
    analogReadPin := analogReadPin s; vRef := vRef s;
    zeroDustVoltage := zeroDustVoltage s; minDustVoltage := minDustVoltage s;
    minZeroDustVoltage := minZeroDustVoltage s;
    maxZeroDustVoltage := maxZeroDustVoltage s;
    typZeroDustVoltage := typZeroDustVoltage s;
    currentBaselineCandidate := currentBaselineCandidate s;
    hasBaselineCandidate := hasBaselineCandidate s; readCount := v;
    calibrationFactor := calibrationFactor s; sensitivity := sensitivity s;
    runningAverageBuffer := runningAverageBuffer s;
    runningAverageCount := runningAverageCount s;
    nextRunningAverageCounter := nextRunningAverageCounter s |}.

Definition set_calibrationFactor (v : f32) (s : GP2YDustSensor) : GP2YDustSensor :=
  {| type := type s; ledOutputPin := ledOutputPin s;
    analogReadPin := analogReadPin s; vRef := vRef s;
    zeroDustVoltage := zeroDustVoltage s; minDustVoltage := minDustVoltage s;
    minZeroDustVoltage := minZeroDustVoltage s;
    maxZeroDustVoltage := maxZeroDustVoltage s;
    typZeroDustVoltage := typZeroDustVoltage s;
    currentBaselineCandidate := currentBaselineCandidate s;
    hasBaselineCandidate := hasBaselineCandidate s; readCount := readCount s;
    calibrationFactor := v; sensitivity := sensitivity s;
    runningAverageBuffer := runningAverageBuffer s;
    runningAverageCount := runningAverageCount s;
    nextRunningAverageCounter := nextRunningAverageCounter s |}.

Definition set_sensitivity (v : f32) (s : GP2YDustSensor) : GP2YDustSensor :=
  {| type := type s; ledOutputPin := ledOutputPin s;
    analogReadPin := analogReadPin s; vRef := vRef s;
    zeroDustVoltage := zeroDustVoltage s; minDustVoltage := minDustVoltage s;
    minZeroDustVoltage := minZeroDustVoltage s;
    maxZeroDustVoltage := maxZeroDustVoltage s;
    typZeroDustVoltage := typZeroDustVoltage s;
    currentBaselineCandidate := currentBaselineCandidate s;
    hasBaselineCandidate := hasBaselineCandidate s; readCount := readCount s;
    calibrationFactor := calibrationFactor s; sensitivity := v;
    runningAverageBuffer := runningAverageBuffer s;
    runningAverageCount := runningAverageCount s;
    nextRunningAverageCounter := nextRunningAverageCounter s |}.

Definition set_runningAverageBuffer (v : list Z) (s : GP2YDustSensor) : GP2YDustSensor :=
  {| type := type s; ledOutputPin := ledOutputPin s;
    analogReadPin := analogReadPin s; vRef := vRef s;
    zeroDustVoltage := zeroDustVoltage s; minDustVoltage := minDustVoltage s;
    minZeroDustVoltage := minZeroDustVoltage s;
    maxZeroDustVoltage := maxZeroDustVoltage s;
    typZeroDustVoltage := typZeroDustVoltage s;
    currentBaselineCandidate := currentBaselineCandidate s;
    hasBaselineCandidate := hasBaselineCandidate s; readCount := readCount s;
    calibrationFactor := calibrationFactor s; sensitivity := sensitivity s;
    runningAverageBuffer := v; runningAverageCount := runningAverageCount s;
    nextRunningAverageCounter := nextRunningAverageCounter s |}.

Definition set_nextRunningAverageCounter (v : Z) (s : GP2YDustSensor) : GP2YDustSensor :=
  {| type := type s; ledOutputPin := ledOutputPin s;
    analogReadPin := analogReadPin s; vRef := vRef s;
    zeroDustVoltage := zeroDustVoltage s; minDustVoltage := minDustVoltage s;
    minZeroDustVoltage := minZeroDustVoltage s;
    maxZeroDustVoltage := maxZeroDustVoltage s;
    typZeroDustVoltage := typZeroDustVoltage s;
    currentBaselineCandidate := currentBaselineCandidate s;
    hasBaselineCandidate := hasBaselineCandidate s; readCount := readCount s;
    calibrationFactor := calibrationFactor s; sensitivity := sensitivity s;
    runningAverageBuffer := runningAverageBuffer s;
    runningAverageCount := runningAverageCount s;
    nextRunningAverageCounter := v |}.

(** ** Construction *)

(** [GP2YDustSensor::GP2YDustSensor].  The [switch] over the sensor type
    selects the zero-dust voltages; the buffer is filled with the empty
    marker [-1] when [runningAverageCount] is not 0. *)
Definition GP2YDustSensor_new (ty : GP2YDustSensorType)
    (ledPin analogPin : Z) (avgCount : Z) (voltageReference : f32)
    : GP2YDustSensor :=
  let minZ := match ty with
              | GP2Y1010AU0F => of_int 0
              | GP2Y1014AU0F => lit 1 10
              end in
  let typZ := match ty with
              | GP2Y1010AU0F => lit 9 10
              | GP2Y1014AU0F => lit 6 10
              end in
  let maxZ := match ty with
              | GP2Y1010AU0F => lit 15 10
              | GP2Y1014AU0F => lit 11 10
              end in
  {| type := ty;
     ledOutputPin := ledPin;
     analogReadPin := analogPin;
     vRef := voltageReference;
     zeroDustVoltage := typZ;
     minDustVoltage := typZ;
     minZeroDustVoltage := minZ;
     maxZeroDustVoltage := maxZ;
     typZeroDustVoltage := typZ;
     currentBaselineCandidate := typZ;
     hasBaselineCandidate := false;
     readCount := 0;
     calibrationFactor := of_int 1;
     sensitivity := lit 5 10;
     runningAverageBuffer :=
       if avgCount =? 0 then [] else replicate (Z.to_nat avgCount) (-1);
     runningAverageCount := avgCount;
     nextRunningAverageCounter := 0 |}.

(** The defaults of the header: a window of 60 and a 5.0 V reference. *)
Definition default_runningAverageCount : Z := 60.
Definition default_voltageReference : f32 := of_int 5.
Definition default_numSamples : Z := 20.

(** ** Methods *)

Definition begin (s : GP2YDustSensor) (hw : hardware) : hardware :=
  pinMode (ledOutputPin s) hw.

Definition setBaseline (v : f32) (s : GP2YDustSensor) : GP2YDustSensor :=
  set_zeroDustVoltage v s.

Definition getBaseline (s : GP2YDustSensor) : f32 * GP2YDustSensor :=
  (zeroDustVoltage s, s).

Definition getBaselineCandidate (s : GP2YDustSensor) : f32 * GP2YDustSensor :=
  if negb (hasBaselineCandidate s) then (currentBaselineCandidate s, s)
  else
    let candidate := minDustVoltage s in
    let s1 := set_minDustVoltage (maxZeroDustVoltage s) s in
    let s2 := set_currentBaselineCandidate (minDustVoltage s1) s1 in
    let s3 := set_readCount 0 s2 in
    let s4 := set_hasBaselineCandidate false s3 in
    (candidate, s4).

Definition setSensitivity (v : f32) (s : GP2YDustSensor) : GP2YDustSensor :=
  set_sensitivity v s.

Definition getSensitivity (s : GP2YDustSensor) : f32 * GP2YDustSensor :=
  (sensitivity s, s).

Definition setCalibrationFactor (slope : f32) (s : GP2YDustSensor)
    : GP2YDustSensor :=
  set_calibrationFactor slope s.

(** [readDustRawOnce]: LED on, 280 us, one conversion stored in a
    [uint16_t], LED off. *)
Definition readDustRawOnce (s : GP2YDustSensor) (hw : hardware)
    : Z * hardware :=
  let hw1 := digitalWrite (ledOutputPin s) LOW hw in
  let hw2 := delayMicroseconds 280 hw1 in
  let '(v, hw3) := analogRead (analogReadPin s) hw2 in
  let VoRaw := Ints.to_uint16 v in
  let hw4 := digitalWrite (ledOutputPin s) HIGH hw3 in
  (VoRaw, hw4).

(** [updateRunningAverage]: the [uint16_t] argument is stored into an
    [int16_t] slot, then the write index advances and wraps.  The index
    stays below the length of the buffer (lemma [window_ok_update]), so
    the store is always in range. *)
Definition updateRunningAverage (value : Z) (s : GP2YDustSensor)
    : GP2YDustSensor :=
  let i := nextRunningAverageCounter s in
  let s1 := set_runningAverageBuffer
              (<[Z.to_nat i := Ints.to_int16 value]> (runningAverageBuffer s)) s in
  let s2 := set_nextRunningAverageCounter (i + 1) s1 in
  if nextRunningAverageCounter s2 >=? runningAverageCount s2
  then set_nextRunningAverageCounter 0 s2
  else s2.

(** The loop of [getRunningAverage] over the slots, carrying the [float]
    sum and the [uint16_t] number of slots that are not [-1]. *)
Fixpoint average_loop (buf : list Z) (runningAverage : f32) (sampleCount : Z)
    : f32 * Z :=
  match buf with
  | [] => (runningAverage, sampleCount)
  | x :: rest =>
      if x =? -1 then average_loop rest runningAverage sampleCount
      else average_loop rest (add runningAverage (of_int x))
                        (Ints.to_uint16 (sampleCount + 1))
  end.

(** [getRunningAverage]: [-1] and the rounded mean are returned as
    [uint16_t], that is modulo 2^16. *)
Definition getRunningAverage (s : GP2YDustSensor) : Z * GP2YDustSensor :=
  if runningAverageCount s =? 0 then (Ints.to_uint16 (-1), s)
  else
    let '(runningAverage, sampleCount) :=
      average_loop (runningAverageBuffer s) (of_int 0) 0 in
    if sampleCount =? 0 then (0, s)
    else
      let runningAverage := div runningAverage (of_int sampleCount) in
      (Ints.to_uint16 (round runningAverage), s).

(** *** [getDustDensity] *)

(** The sampling loop, [for (uint8_t i = 0; i < numSamples; i++)].  Each
    unit of fuel pays for one iteration; [Running] is the state reached
    when the fuel runs out with the loop condition still true. *)
Inductive loop_result : Type :=
  | Finished (total : Z) (hw : hardware)
  | Running (i total : Z) (hw : hardware).

Fixpoint sample_loop (fuel : nat) (numSamples : Z) (s : GP2YDustSensor)
    (i total : Z) (hw : hardware) : loop_result :=
  if i <? numSamples then
    match fuel with
    | O => Running i total hw
    | S fuel' =>
        let '(v, hw1) := readDustRawOnce s hw in
        let total' := Ints.to_uint32 (total + v) in
        let hw2 := delayMicroseconds 9620 hw1 in
        sample_loop fuel' numSamples s (Ints.to_uint8 (i + 1)) total' hw2
    end
  else Finished total hw.

(** [avgRaw * (vRef / 1024) * calibrationFactor]. *)
Definition scaledVoltage (s : GP2YDustSensor) (avgRaw : Z) : f32 :=
  mul (mul (of_int avgRaw) (div (vRef s) (of_int 1024))) (calibrationFactor s).

(** The scaled voltage of a call that takes [numSamples] samples from the
    board [hw]: the integer mean of the samples, scaled.  Up to 255 samples
    of 16 bits the 32-bit [total] cannot overflow (lemma
    [sample_loop_from_zero]). *)
Definition meanVoltage (s : GP2YDustSensor) (hw : hardware) (numSamples : Z)
    : f32 :=
  let total := raw_sum (adc hw) (reads hw) (Z.to_nat numSamples) in
  scaledVoltage s (Ints.to_uint16 (total / numSamples)).

(** The baseline-candidate update, lines 177-179. *)
Definition trackMinimum (voltage : f32) (s : GP2YDustSensor)
    : GP2YDustSensor :=
  if ltb voltage (minDustVoltage s)
     && geb voltage (minZeroDustVoltage s)
     && leb voltage (maxZeroDustVoltage s)
  then set_minDustVoltage voltage s
  else s.

(** The value assigned to [uint16_t dustDensity], lines 183-196; [None]
    when the [float] does not convert to [uint16_t]. *)
Definition dustDensity (s : GP2YDustSensor) (voltage : f32) : option Z :=
  if ltb voltage (zeroDustVoltage s) then Some 0
  else
    F32.to_uint16
      (mul (div (sub voltage (zeroDustVoltage s)) (sensitivity s)) (of_int 100)).

(** Lines 202-207. *)
Definition countReading (s : GP2YDustSensor) : GP2YDustSensor :=
  if negb (hasBaselineCandidate s) then
    let s1 := set_readCount (Ints.to_uint16 (readCount s + 1)) s in
    if readCount s1 >? BASELINE_CANDIDATE_MIN_READINGS
    then set_hasBaselineCandidate true s1
    else s1
  else s.

(** Everything after the sampling loop. *)
Definition processSamples (numSamples total : Z) (s : GP2YDustSensor)
    : option (Z * GP2YDustSensor) :=
  if numSamples =? 0 then None
  else
    let avgRaw := Ints.to_uint16 (total / numSamples) in
    let voltage := scaledVoltage s avgRaw in
    let s1 := trackMinimum voltage s in
    match dustDensity s1 voltage with
    | None => None
    | Some d =>
        let s2 := if runningAverageCount s1 =? 0 then s1
                  else updateRunningAverage d s1 in
        Some (d, countReading s2)
    end.

(** What a call can do: return, run into undefined behaviour (division by
    a zero sample count, a [float] outside [uint16_t]), or still be inside
    the sampling loop when the fuel is spent. *)
Inductive outcome : Type :=
  | Returns (density : Z) (s : GP2YDustSensor) (hw : hardware)
  | Undefined
  | StillSampling (hw : hardware).

Definition getDustDensity (fuel : nat) (numSamples : Z) (s : GP2YDustSensor)
    (hw : hardware) : outcome :=
  match sample_loop fuel numSamples s 0 0 hw with
  | Running _ _ hw' => StillSampling hw'
  | Finished total hw' =>
      match processSamples numSamples total s with
      | Some (d, s') => Returns d s' hw'
      | None => Undefined
      end
  end.

(** ** Calls as data, for statements about every operation *)

Inductive call : Type :=
  | CallBegin
  | CallSetBaseline (v : f32)
  | CallGetBaseline
  | CallGetBaselineCandidate
  | CallSetSensitivity (v : f32)
  | CallGetSensitivity
  | CallGetDustDensity (fuel : nat) (numSamples : Z)
  | CallGetRunningAverage
  | CallSetCalibrationFactor (v : f32).

(** The sensor after a call, [None] when [getDustDensity] does not return
    a value. *)
Definition after (c : call) (s : GP2YDustSensor) (hw : hardware)
    : option (GP2YDustSensor * hardware) :=
  match c with
  | CallBegin => Some (s, begin s hw)
  | CallSetBaseline v => Some (setBaseline v s, hw)
  | CallGetBaseline => Some (snd (getBaseline s), hw)
  | CallGetBaselineCandidate => Some (snd (getBaselineCandidate s), hw)
  | CallSetSensitivity v => Some (setSensitivity v s, hw)
  | CallGetSensitivity => Some (snd (getSensitivity s), hw)
  | CallGetDustDensity fuel n =>
      match getDustDensity fuel n s hw with
      | Returns _ s' hw' => Some (s', hw')
      | _ => None
      end
  | CallGetRunningAverage => Some (snd (getRunningAverage s), hw)
  | CallSetCalibrationFactor v => Some (setCalibrationFactor v s, hw)
  end.

(** A board whose converter always reads [v], and a list of densities
    pushed into the window one after the other. *)
Definition constant_adc (v : Z) : hardware :=
  {| adc := fun _ => v; reads := 0; trace := [] |}.

Definition push_all (vs : list Z) (s : GP2YDustSensor) : GP2YDustSensor :=
  foldl (fun acc v => updateRunningAverage v acc) s vs.

Definition fresh_window (capacity : Z) : GP2YDustSensor :=
  GP2YDustSensor_new GP2Y1014AU0F 2 0 capacity default_voltageReference.

(** A sequence of calls, stopping at the first one that does not return. *)
Fixpoint run (cs : list call) (s : GP2YDustSensor) (hw : hardware)
    : option (GP2YDustSensor * hardware) :=
  match cs with
  | [] => Some (s, hw)
  | c :: cs' =>
      match after c s hw with
      | Some (s1, hw1) => run cs' s1 hw1
      | None => None
      end
  end.

(** [n] calls of [getBaselineCandidate] in a row: the values returned,
    oldest first, and the state left behind. *)
Fixpoint poll_candidate (n : nat) (s : GP2YDustSensor)
    : list f32 * GP2YDustSensor :=
  match n with
  | O => ([], s)
  | S n' =>
      let '(c, s1) := getBaselineCandidate s in
      let '(cs, s2) := poll_candidate n' s1 in
      (c :: cs, s2)
  end.

(** ** Predicates used in the statements *)

(** The tracked minimum lies within the profile's zero-dust range. *)
Definition tracked_in_range (s : GP2YDustSensor) : Prop :=
  leb (minZeroDustVoltage s) (minDustVoltage s) = true /\
  leb (minDustVoltage s) (maxZeroDustVoltage s) = true.

(** The flag is raised by the eleventh reading after a reset and the
    counter stops there. *)
Definition counter_ok (s : GP2YDustSensor) : Prop :=
  if hasBaselineCandidate s then readCount s = 11
  else 0 <= readCount s <= BASELINE_CANDIDATE_MIN_READINGS.

(** The write index is inside the buffer, which has one slot per unit of
    capacity. *)
Definition window_ok (s : GP2YDustSensor) : Prop :=
  0 <= nextRunningAverageCounter s < runningAverageCount s /\
  Z.of_nat (length (runningAverageBuffer s)) = runningAverageCount s.

(** Groups of fields that a call leaves alone. *)
Definition same_profile (s s' : GP2YDustSensor) : Prop :=
  type s' = type s /\
  ledOutputPin s' = ledOutputPin s /\
  analogReadPin s' = analogReadPin s /\
  vRef s' = vRef s /\
  minZeroDustVoltage s' = minZeroDustVoltage s /\
  maxZeroDustVoltage s' = maxZeroDustVoltage s /\
  typZeroDustVoltage s' = typZeroDustVoltage s /\
  runningAverageCount s' = runningAverageCount s.

Definition same_scaling (s s' : GP2YDustSensor) : Prop :=
  calibrationFactor s' = calibrationFactor s /\
  sensitivity s' = sensitivity s.

Definition same_tracker (s s' : GP2YDustSensor) : Prop :=
  minDustVoltage s' = minDustVoltage s /\
  currentBaselineCandidate s' = currentBaselineCandidate s /\
  hasBaselineCandidate s' = hasBaselineCandidate s /\
  readCount s' = readCount s.

Definition same_window (s s' : GP2YDustSensor) : Prop :=
  runningAverageBuffer s' = runningAverageBuffer s /\
  nextRunningAverageCounter s' = nextRunningAverageCounter s.

(** The value [getRunningAverage] computes from a buffer of slots. *)
Definition average_of_slots (buf : list Z) : Z :=
  let '(runningAverage, sampleCount) := average_loop buf (of_int 0) 0 in
  if sampleCount =? 0 then 0
  else Ints.to_uint16 (round (div runningAverage (of_int sampleCount))).

(** The window as the specification words it: the mean of the values,
    rounded to the nearest integer (exact arithmetic, halves upward). *)
Definition rounded_mean (vs : list Z) : Z :=
  let sum := foldr Z.add 0 vs in
  let n := Z.of_nat (length vs) in
  (2 * sum + n) / (2 * n).

(** ** Sensors used as concrete inputs *)

(** The scenario of the specification: GP2Y1014AU0F, baseline 0.6 V,
    reference 5.0 V, sensitivity 0.5. *)
Definition scenario_sensor : GP2YDustSensor :=
  GP2YDustSensor_new GP2Y1014AU0F 2 0 default_runningAverageCount
    default_voltageReference.

(** The same sensor after [setBaseline(INFINITY)] and
    [setCalibrationFactor(INFINITY)]. *)
Definition unbounded_sensor : GP2YDustSensor :=
  setCalibrationFactor infinity (setBaseline infinity scenario_sensor).

(** A sensor that has taken eleven readings of clean air. *)
Definition ready_sensor : option (GP2YDustSensor * hardware) :=
  run (replicate 11 (CallGetDustDensity 1 1)) scenario_sensor
      (constant_adc 100).

Definition ready_state : GP2YDustSensor :=
  match ready_sensor with
  | Some (s, _) => s
  | None => scenario_sensor
  end.

(** ** The pulse train on the board *)

(** What one pass of the sampling loop writes to the board when the
    converter answers [v]. *)
Definition pulse (s : GP2YDustSensor) (v : Z) : list event :=
  [DigitalWrite (ledOutputPin s) LOW;
   DelayMicroseconds 280;
   AnalogRead (analogReadPin s) v;
   DigitalWrite (ledOutputPin s) HIGH;
   DelayMicroseconds 9620].

Fixpoint pulses (s : GP2YDustSensor) (input : nat -> Z) (start k : nat)
    : list event :=
  match k with
  | O => []
  | S k' => pulse s (input start) ++ pulses s input (S start) k'
  end.

(** ** Kinds of calls *)

Definition is_reading (c : call) : bool :=
  match c with
  | CallGetDustDensity _ _ => true
  | _ => false
  end.

Definition is_setter (c : call) : bool :=
  match c with
  | CallSetBaseline _ | CallSetSensitivity _ | CallSetCalibrationFactor _ =>
      true
  | _ => false
  end.

(** ** Further predicates *)

(** The stored candidate lies within the profile's zero-dust range. *)
Definition candidate_in_range (s : GP2YDustSensor) : Prop :=
  leb (minZeroDustVoltage s) (currentBaselineCandidate s) = true /\
  leb (currentBaselineCandidate s) (maxZeroDustVoltage s) = true.

(** The scaling a sensor has when no setter was called on it and the
    reference is the header's default. *)
Definition default_settings (s : GP2YDustSensor) : Prop :=
  vRef s = default_voltageReference /\
  calibrationFactor s = of_int 1 /\
  sensitivity s = lit 5 10 /\
  (zeroDustVoltage s = lit 9 10 \/ zeroDustVoltage s = lit 6 10).

(** Every conversion of the board is a 10-bit value. *)
Definition ten_bit (hw : hardware) : Prop :=
  forall k, 0 <= adc hw k <= 1023.

(** ** Exhaustive checks over the 16-bit and 10-bit ranges *)

(** The integers [start, start + 1, ...], [n] of them. *)
Fixpoint Zrange (start : Z) (n : nat) : list Z :=
  match n with
  | O => []
  | S n' => start :: Zrange (start + 1) n'
  end.

(** A window whose only filled slot holds [v] reports [v]. *)
Definition single_slot_exact (v : Z) : bool :=
  average_of_slots [Ints.to_int16 v] =? v.

(** In a window holding [v] and [65536 - v] the two slots cancel. *)
Definition opposite_slots_cancel (v : Z) : bool :=
  average_of_slots [Ints.to_int16 v; Ints.to_int16 (65536 - v)] =? 0.

(** The density of a freshly constructed sensor of type [ty] at the raw
    mean [avgRaw]. *)
Definition default_density (ty : GP2YDustSensorType) (avgRaw : Z) : option Z :=
  let s := GP2YDustSensor_new ty 0 0 0 default_voltageReference in
  dustDensity s (scaledVoltage s avgRaw).

Definition density_bound (ty : GP2YDustSensorType) : Z :=
  match ty with
  | GP2Y1010AU0F => 819
  | GP2Y1014AU0F => 879
  end.

(** At [avgRaw] the density is defined and within the bound, and it does
    not decrease at [avgRaw + 1]. *)
Definition density_step_ok (ty : GP2YDustSensorType) (avgRaw : Z) : bool :=
  match default_density ty avgRaw, default_density ty (avgRaw + 1) with
  | Some d, Some d' => (0 <=? d) && (d <=? d') && (d' <=? density_bound ty)
  | _, _ => false
  end.

(** * Properties *)

(** ** Fixed-width integers: ranges *)

Section IntLemmas.

Lemma to_uint8_small z : 0 <= z < 256 -> Ints.to_uint8 z = z.
Proof. intros H. unfold Ints.to_uint8. apply Z.mod_small. lia. Qed.

Lemma to_uint8_range z : 0 <= Ints.to_uint8 z < 256.
Proof. unfold Ints.to_uint8. apply Z.mod_pos_bound. lia. Qed.

Lemma to_uint16_small z : 0 <= z < 65536 -> Ints.to_uint16 z = z.
Proof. intros H. unfold Ints.to_uint16. apply Z.mod_small. lia. Qed.

Lemma to_uint16_range z : 0 <= Ints.to_uint16 z < 65536.
Proof. unfold Ints.to_uint16. apply Z.mod_pos_bound. lia. Qed.

Lemma to_uint32_small z : 0 <= z < 4294967296 -> Ints.to_uint32 z = z.
Proof. intros H. unfold Ints.to_uint32. apply Z.mod_small. lia. Qed.

Lemma to_uint32_range z : 0 <= Ints.to_uint32 z < 4294967296.
Proof. unfold Ints.to_uint32. apply Z.mod_pos_bound. lia. Qed.

Lemma to_uint32_add_l a b :
  Ints.to_uint32 (Ints.to_uint32 a + b) = Ints.to_uint32 (a + b).
Proof. unfold Ints.to_uint32. apply Zplus_mod_idemp_l. Qed.

Lemma to_int16_range z : -32768 <= Ints.to_int16 z < 32768.
Proof.
  unfold Ints.to_int16.
  pose proof (Z.mod_pos_bound (z + 32768) 65536). lia.
Qed.

Lemma to_int16_low z : 0 <= z < 32768 -> Ints.to_int16 z = z.
Proof. intros H. unfold Ints.to_int16. rewrite Z.mod_small; lia. Qed.

Lemma to_int16_high z : 32768 <= z < 65536 -> Ints.to_int16 z = z - 65536.
Proof.
  intros H. unfold Ints.to_int16.
  replace (z + 32768) with ((z - 32768) + 1 * 65536) by lia.
  rewrite Z.mod_add by lia. rewrite Z.mod_small; lia.
Qed.

End IntLemmas.

(** ** The order on binary32 *)

Section FloatOrder.

Lemma compare_antisym (a b : f32) :
  SFcompare b a = option_map CompOpp (SFcompare a b).
Proof.
  destruct a as [sa|sa| |sa ma ea], b as [sb|sb| |sb mb eb]; simpl;
    try reflexivity;
    try (destruct sa; reflexivity);
    try (destruct sb; reflexivity);
    try (destruct sa, sb; reflexivity).
  destruct sa, sb; simpl; try reflexivity;
    rewrite (Z.compare_antisym ea eb);
    destruct (ea ?= eb); simpl; try reflexivity;
    change (Pos.compare_cont Eq) with Pos.compare;
    rewrite (Pos.compare_antisym ma mb);
    destruct (ma ?= mb)%positive; reflexivity.
Qed.

Lemma leb_not_ltb (a b : f32) : leb a b = true -> ltb b a = false.
Proof.
  unfold leb, ltb, SFleb, SFltb. rewrite (compare_antisym a b).
  destruct (SFcompare a b) as [[ | | ]|]; simpl; congruence.
Qed.

Lemma leb_cases (a b : f32) :
  leb a b = true -> ltb a b = true \/ SFcompare a b = Some Eq.
Proof.
  unfold leb, ltb, SFleb, SFltb.
  destruct (SFcompare a b) as [[ | | ]|]; auto; discriminate.
Qed.


Lemma leb_refl_right (a b : f32) : leb a b = true -> leb b b = true.
Proof.
  unfold leb, SFleb.
  destruct b as [sb|sb| |sb mb eb]; simpl; try reflexivity.
  - destruct sb; reflexivity.
  - destruct a; discriminate.
  - intros _. destruct sb; rewrite Z.compare_refl;
      change (Pos.compare_cont Eq mb mb) with (Pos.compare mb mb);
      rewrite Pos.compare_refl; reflexivity.
Qed.

Lemma leb_trans (a b c : f32) :
  leb a b = true -> leb b c = true -> leb a c = true.
Proof.
  unfold leb, SFleb.
  destruct a as [sa|sa| |sa ma ea], b as [sb|sb| |sb mb eb],
           c as [sc|sc| |sc mc ec]; simpl;
    try discriminate; try reflexivity;
    try (destruct sa; simpl; try discriminate; try reflexivity; fail);
    try (destruct sb; simpl; try discriminate; try reflexivity; fail);
    try (destruct sc; simpl; try discriminate; try reflexivity; fail);
    try (destruct sa, sb; simpl; try discriminate; try reflexivity; fail);
    try (destruct sa, sc; simpl; try discriminate; try reflexivity; fail);
    try (destruct sb, sc; simpl; try discriminate; try reflexivity; fail);
    try (destruct sa, sb, sc; simpl; try discriminate; try reflexivity; fail).
  all: destruct sa, sb, sc; simpl; try discriminate; try reflexivity.
  all: change (Pos.compare_cont Eq) with Pos.compare.
  all: destruct (Z.compare_spec ea eb), (Z.compare_spec eb ec), (Z.compare_spec ea ec);
       subst; simpl; try discriminate; try reflexivity; try lia.
  all: destruct (Pos.compare_spec ma mb), (Pos.compare_spec mb mc), (Pos.compare_spec ma mc);
       subst; simpl; try discriminate; try reflexivity; try lia.
Qed.

End FloatOrder.

(** ** The sampling loop *)

Section Sampling.

Variable s : GP2YDustSensor.

Lemma samples_in_app t1 t2 :
  samples_in (t1 ++ t2) = samples_in t1 + samples_in t2.
Proof.
  induction t1 as [|e t1 IH]; simpl; [reflexivity|].
  destruct e; rewrite IH; lia.
Qed.

Lemma elapsed_us_app a t1 t2 :
  elapsed_us a (t1 ++ t2) = elapsed_us a t1 + elapsed_us a t2.
Proof.
  induction t1 as [|e t1 IH]; simpl; [reflexivity|].
  destruct e; rewrite IH; lia.
Qed.

(** One pass through the loop body: one conversion, 9900 us of delays. *)
Lemma cycle_effect hw :
  exists v hw1,
    readDustRawOnce s hw = (v, hw1) /\
    v = Ints.to_uint16 (adc hw (reads hw)) /\
    adc (delayMicroseconds 9620 hw1) = adc hw /\
    reads (delayMicroseconds 9620 hw1) = S (reads hw) /\
    samples_in (trace (delayMicroseconds 9620 hw1))
      = samples_in (trace hw) + 1 /\
    forall a, elapsed_us a (trace (delayMicroseconds 9620 hw1))
              = elapsed_us a (trace hw) + (9900 + a).
Proof.
  eexists _, _. split; [reflexivity|].
  unfold analogRead, delayMicroseconds, digitalWrite, emit. simpl.
  repeat split.
  - rewrite !samples_in_app. simpl. lia.
  - intros a. rewrite !elapsed_us_app. simpl. lia.
Qed.

Lemma raw_sum_bound (input : nat -> Z) (k : nat) :
  forall start, 0 <= raw_sum input start k <= Z.of_nat k * 65535.
Proof.
  induction k as [|k IH]; intros start; simpl raw_sum; [lia|].
  pose proof (to_uint16_range (input start)). specialize (IH (S start)). lia.
Qed.

(** With at most 255 samples requested the counter never wraps: the loop
    runs once per remaining sample and then exits, whatever fuel is left,
    with the 32-bit sum of the samples it took. *)
Lemma sample_loop_finishes (n : Z) (k : nat) :
  forall (i total : Z) (hw : hardware) (extra : nat),
    0 <= i -> i + Z.of_nat k = n -> n <= 255 ->
    exists hw',
      sample_loop (k + extra) n s i (Ints.to_uint32 total) hw
      = Finished (Ints.to_uint32 (total + raw_sum (adc hw) (reads hw) k)) hw' /\
      adc hw' = adc hw /\
      reads hw' = (reads hw + k)%nat /\
      samples_in (trace hw') = samples_in (trace hw) + Z.of_nat k /\
      forall a, elapsed_us a (trace hw')
                = elapsed_us a (trace hw) + Z.of_nat k * (9900 + a).
Proof.
  induction k as [|k IH]; intros i total hw extra Hi Hn Hmax.
  - exists hw. split.
    + destruct extra; cbn [sample_loop Nat.add raw_sum];
        (replace (i <? n) with false by (symmetry; apply Z.ltb_ge; lia));
        rewrite Z.add_0_r; reflexivity.
    + repeat split; lia.
  - cbn [sample_loop Nat.add raw_sum].
    replace (i <? n) with true by (symmetry; apply Z.ltb_lt; lia).
    destruct (cycle_effect hw)
      as (v & hw1 & Hread & Hv & Hadc & Hreads & Hsamples & Hus).
    rewrite Hread, (to_uint8_small (i + 1)), to_uint32_add_l by lia.
    destruct (IH (i + 1) (total + v) (delayMicroseconds 9620 hw1) extra)
      as (hw' & Hrun & Ha & Hr & Hs & Hu); try lia.
    exists hw'. rewrite Hrun, Ha, Hr, Hs, Hadc, Hreads, Hsamples, <- Hv.
    split; [f_equal; f_equal; lia|].
    repeat split; try lia.
    intros a. rewrite Hu, Hus. lia.
Qed.

(** From 256 samples on, the 8-bit counter wraps before it can reach
    [numSamples]: whatever the fuel, the loop is still running and has
    taken one sample per unit of fuel. *)
Lemma sample_loop_never_exits (n : Z) (fuel : nat) :
  forall (i total : Z) (hw : hardware),
    256 <= n -> 0 <= i < 256 ->
    exists i' total' hw',
      sample_loop fuel n s i total hw = Running i' total' hw' /\
      reads hw' = (reads hw + fuel)%nat /\
      samples_in (trace hw') = samples_in (trace hw) + Z.of_nat fuel.
Proof.
  induction fuel as [|fuel IH]; intros i total hw Hn Hi; cbn [sample_loop];
    (replace (i <? n) with true by (symmetry; apply Z.ltb_lt; lia)).
  - exists i, total, hw. repeat split; lia.
  - destruct (cycle_effect hw)
      as (v & hw1 & Hread & _ & _ & Hreads & Hsamples & _).
    rewrite Hread.
    destruct (IH (Ints.to_uint8 (i + 1)) (Ints.to_uint32 (total + v))
                 (delayMicroseconds 9620 hw1) Hn (to_uint8_range _))
      as (i' & total' & hw' & Hrun & Hr & Hs).
    exists i', total', hw'. split; [exact Hrun|].
    rewrite Hr, Hs, Hreads, Hsamples. split; lia.
Qed.

(** The whole loop, entered as [getDustDensity] enters it. *)
Lemma sample_loop_from_zero (n : Z) (extra : nat) (hw : hardware) :
  1 <= n <= 255 ->
  exists hw',
    sample_loop (Z.to_nat n + extra) n s 0 0 hw
    = Finished (raw_sum (adc hw) (reads hw) (Z.to_nat n)) hw' /\
    samples_in (trace hw') = samples_in (trace hw) + n /\
    forall a, elapsed_us a (trace hw')
              = elapsed_us a (trace hw) + n * (9900 + a).
Proof.
  intros Hn.
  destruct (sample_loop_finishes n (Z.to_nat n) 0 0 hw extra)
    as (hw' & Hrun & _ & _ & Hs & Hu); try lia.
  exists hw'.
  pose proof (raw_sum_bound (adc hw) (Z.to_nat n) (reads hw)) as Hb.
  rewrite (to_uint32_small (0 + _)) in Hrun by lia.
  change (Ints.to_uint32 0) with 0 in Hrun.
  rewrite Hrun, Hs. split; [reflexivity|]. split; [lia|].
  intros a. rewrite Hu. lia.
Qed.

End Sampling.

(** ** Arithmetic at the baseline *)

Section AtBaseline.

Lemma compare_eq_finite (a b : f32) :
  SFcompare a b = Some Eq -> is_finite b = true -> is_finite a = true.
Proof.
  destruct a as [sa|sa| |sa ma ea], b as [sb|sb| |sb mb eb]; simpl;
    try reflexivity; try discriminate; destruct sa; discriminate.
Qed.

(** Equal finite numbers subtract to a zero. *)
Lemma sub_compare_eq (a b : f32) :
  SFcompare a b = Some Eq -> is_finite b = true ->
  exists sg, sub a b = S754_zero sg.
Proof.
  destruct a as [sa|sa| |sa ma ea], b as [sb|sb| |sb mb eb]; simpl;
    try discriminate;
    try (destruct sa; discriminate); try (destruct sb; discriminate).
  - intros _ _. destruct sa, sb; eexists; reflexivity.
  - intros H _.
    assert (sa = sb /\ ea = eb /\ ma = mb) as (-> & -> & ->).
    { destruct sa, sb; try discriminate;
        destruct (Z.compare_spec ea eb); try discriminate;
        change (Pos.compare_cont Eq) with Pos.compare in H;
        destruct (Pos.compare_spec ma mb); try discriminate; auto. }
    exists false. unfold sub, SFsub. rewrite Z.sub_diag. reflexivity.
Qed.

Lemma positive_cases (x : f32) :
  ltb (of_int 0) x = true ->
  x = S754_infinity false \/ exists m e, x = S754_finite false m e.
Proof.
  destruct x as [sx|sx| |sx mx ex]; try discriminate.
  - destruct sx; [discriminate|]. auto.
  - destruct sx; [discriminate|]. right. eauto.
Qed.

Lemma zero_density (sg : bool) (sens : f32) :
  ltb (of_int 0) sens = true ->
  F32.to_uint16 (mul (div (S754_zero sg) sens) (of_int 100)) = Some 0.
Proof.
  intros H. destruct (positive_cases sens H) as [-> | (m & e & ->)];
    reflexivity.
Qed.

End AtBaseline.

Section Density.

(** The branch taken on the baseline side. *)
Lemma dustDensity_floor (s : GP2YDustSensor) (voltage : f32) :
  leb voltage (zeroDustVoltage s) = true ->
  is_finite (zeroDustVoltage s) = true ->
  ltb (of_int 0) (sensitivity s) = true ->
  dustDensity s voltage = Some 0.
Proof.
  intros Hle Hfin Hpos. unfold dustDensity.
  destruct (leb_cases _ _ Hle) as [Hlt | Heq]; [rewrite Hlt; reflexivity|].
  replace (ltb voltage (zeroDustVoltage s)) with false
    by (unfold ltb, SFltb; rewrite Heq; reflexivity).
  destruct (sub_compare_eq _ _ Heq Hfin) as [sg ->].
  apply zero_density, Hpos.
Qed.

Lemma dustDensity_above (s : GP2YDustSensor) (voltage : f32) :
  leb (zeroDustVoltage s) voltage = true ->
  dustDensity s voltage =
  F32.to_uint16
    (mul (div (sub voltage (zeroDustVoltage s)) (sensitivity s)) (of_int 100)).
Proof.
  intros H. unfold dustDensity. rewrite (leb_not_ltb _ _ H). reflexivity.
Qed.

Lemma trackMinimum_baseline voltage s :
  zeroDustVoltage (trackMinimum voltage s) = zeroDustVoltage s /\
  sensitivity (trackMinimum voltage s) = sensitivity s.
Proof. unfold trackMinimum. destruct (_ && _); split; reflexivity. Qed.

(** Once the loop has finished and the density converts, the call
    returns it. *)
Lemma getDustDensity_returns fuel n s hw total hw' d :
  sample_loop fuel n s 0 0 hw = Finished total hw' ->
  n <> 0 ->
  dustDensity s (scaledVoltage s (Ints.to_uint16 (total / n))) = Some d ->
  exists s', getDustDensity fuel n s hw = Returns d s' hw'.
Proof.
  intros Hloop Hn Hd. unfold getDustDensity, processSamples.
  rewrite Hloop. apply Z.eqb_neq in Hn. rewrite Hn.
  set (voltage := scaledVoltage s _) in *.
  assert (dustDensity (trackMinimum voltage s) voltage = Some d) as ->.
  { unfold dustDensity in *.
    destruct (trackMinimum_baseline voltage s) as [-> ->]. exact Hd. }
  eexists. reflexivity.
Qed.

End Density.

(** ** What each method leaves alone *)

Section Frames.

Lemma trackMinimum_frame v s :
  same_profile s (trackMinimum v s) /\ same_scaling s (trackMinimum v s) /\
  same_window s (trackMinimum v s) /\
  zeroDustVoltage (trackMinimum v s) = zeroDustVoltage s /\
  hasBaselineCandidate (trackMinimum v s) = hasBaselineCandidate s /\
  readCount (trackMinimum v s) = readCount s.
Proof.
  unfold trackMinimum, same_profile, same_scaling, same_window.
  destruct (_ && _); simpl; tauto.
Qed.

Lemma updateRunningAverage_frame v s :
  same_profile s (updateRunningAverage v s) /\
  same_scaling s (updateRunningAverage v s) /\
  same_tracker s (updateRunningAverage v s) /\
  zeroDustVoltage (updateRunningAverage v s) = zeroDustVoltage s.
Proof.
  unfold updateRunningAverage, same_profile, same_scaling, same_tracker.
  simpl. destruct (_ >=? _); simpl; tauto.
Qed.

Lemma countReading_frame s :
  same_profile s (countReading s) /\ same_scaling s (countReading s) /\
  same_window s (countReading s) /\
  zeroDustVoltage (countReading s) = zeroDustVoltage s /\
  minDustVoltage (countReading s) = minDustVoltage s.
Proof.
  unfold countReading, same_profile, same_scaling, same_window.
  destruct (negb _); simpl; [destruct (_ >? _)|]; simpl; tauto.
Qed.

Lemma getBaselineCandidate_frame s :
  same_profile s (snd (getBaselineCandidate s)) /\
  same_scaling s (snd (getBaselineCandidate s)) /\
  same_window s (snd (getBaselineCandidate s)) /\
  zeroDustVoltage (snd (getBaselineCandidate s)) = zeroDustVoltage s.
Proof.
  unfold getBaselineCandidate, same_profile, same_scaling, same_window.
  destruct (negb _); simpl; tauto.
Qed.

Lemma getRunningAverage_state s : snd (getRunningAverage s) = s.
Proof.
  unfold getRunningAverage.
  destruct (_ =? 0); [reflexivity|].
  destruct (average_loop _ _ _) as [ra sc].
  destruct (sc =? 0); reflexivity.
Qed.

(** The state a returning [getDustDensity] leaves. *)
Lemma getDustDensity_state fuel n s hw d s' hw' :
  getDustDensity fuel n s hw = Returns d s' hw' ->
  exists total,
    sample_loop fuel n s 0 0 hw = Finished total hw' /\
    n <> 0 /\
    let voltage := scaledVoltage s (Ints.to_uint16 (total / n)) in
    dustDensity s voltage = Some d /\
    s' = countReading
           (if runningAverageCount s =? 0 then trackMinimum voltage s
            else updateRunningAverage d (trackMinimum voltage s)).
Proof.
  unfold getDustDensity, processSamples.
  destruct (sample_loop fuel n s 0 0 hw) as [total hw1|]; [|discriminate].
  destruct (Z.eqb_spec n 0) as [|Hn]; [discriminate|].
  set (voltage := scaledVoltage s _).
  destruct (trackMinimum_frame voltage s)
    as ((_ & _ & _ & _ & _ & _ & _ & Hcount) & (_ & Hsens) & _ & Hzero & _).
  assert (dustDensity (trackMinimum voltage s) voltage
          = dustDensity s voltage) as ->.
  { unfold dustDensity. rewrite Hzero, Hsens. reflexivity. }
  destruct (dustDensity s voltage) as [d0|] eqn:Hd; [|discriminate].
  rewrite Hcount. intros H. injection H as <- <- <-.
  exists total. repeat split; auto.
Qed.

Lemma same_profile_refl s : same_profile s s.
Proof. unfold same_profile. tauto. Qed.

Lemma same_profile_trans s1 s2 s3 :
  same_profile s1 s2 -> same_profile s2 s3 -> same_profile s1 s3.
Proof. unfold same_profile. intuition congruence. Qed.

(** No call touches the profile, the pins or the capacity. *)
Lemma after_same_profile c s hw s' hw' :
  after c s hw = Some (s', hw') -> same_profile s s'.
Proof.
  destruct c; simpl; intros H;
    try (injection H as <- <-; try apply same_profile_refl;
         unfold same_profile; simpl; tauto).
  - injection H as <- <-. apply getBaselineCandidate_frame.
  - destruct (getDustDensity fuel numSamples s hw) as [d s1 hw1| |] eqn:E;
      try discriminate.
    injection H as <- <-.
    apply getDustDensity_state in E as (total & _ & _ & _ & ->).
    eapply same_profile_trans; [|apply countReading_frame].
    destruct (_ =? 0).
    + apply trackMinimum_frame.
    + eapply same_profile_trans;
        [apply trackMinimum_frame | apply updateRunningAverage_frame].
  - injection H as <- <-. rewrite getRunningAverage_state.
    apply same_profile_refl.
Qed.

Lemma run_same_profile cs :
  forall s hw s' hw', run cs s hw = Some (s', hw') -> same_profile s s'.
Proof.
  induction cs as [|c cs IH]; simpl; intros s hw s' hw' H.
  - injection H as <- <-. apply same_profile_refl.
  - destruct (after c s hw) as [[s1 hw1]|] eqn:E; [|discriminate].
    eapply same_profile_trans;
      [eapply after_same_profile, E | eapply IH, H].
Qed.

End Frames.

(** ** The baseline tracker *)

Section Tracker.

Lemma getBaselineCandidate_pending s :
  hasBaselineCandidate s = false ->
  getBaselineCandidate s = (currentBaselineCandidate s, s).
Proof. intros H. unfold getBaselineCandidate. rewrite H. reflexivity. Qed.

Lemma tracked_in_range_new ty led pin n vref :
  tracked_in_range (GP2YDustSensor_new ty led pin n vref).
Proof. destruct ty; split; vm_compute; reflexivity. Qed.

Lemma trackMinimum_cases v s :
  minDustVoltage (trackMinimum v s) = minDustVoltage s \/
  (minDustVoltage (trackMinimum v s) = v /\
   ltb v (minDustVoltage s) = true /\
   leb (minZeroDustVoltage s) v = true /\
   leb v (maxZeroDustVoltage s) = true).
Proof.
  unfold trackMinimum, geb.
  destruct (ltb v (minDustVoltage s)) eqn:E1;
    destruct (SFleb (minZeroDustVoltage s) v) eqn:E2;
    destruct (leb v (maxZeroDustVoltage s)) eqn:E3; simpl; auto.
Qed.

Lemma trackMinimum_in_range v s :
  tracked_in_range s -> tracked_in_range (trackMinimum v s).
Proof.
  intros Hs. unfold tracked_in_range.
  destruct (trackMinimum_frame v s)
    as ((_ & _ & _ & _ & Hmin & Hmax & _) & _).
  rewrite Hmin, Hmax.
  destruct (trackMinimum_cases v s) as [-> | (-> & _ & H1 & H2)]; auto.
Qed.

(** The counter and the flag move together. *)
Lemma counter_ok_new ty led pin n vref :
  counter_ok (GP2YDustSensor_new ty led pin n vref).
Proof. unfold counter_ok, BASELINE_CANDIDATE_MIN_READINGS. simpl. lia. Qed.

Lemma countReading_counter s : counter_ok s -> counter_ok (countReading s).
Proof.
  unfold counter_ok, countReading, BASELINE_CANDIDATE_MIN_READINGS.
  destruct (hasBaselineCandidate s) eqn:E; simpl; [rewrite E; auto|].
  intros H. rewrite (to_uint16_small (readCount s + 1)) by lia.
  destruct (Z.gtb_spec (readCount s + 1) 10); simpl; [|rewrite E]; lia.
Qed.

Lemma after_counter_ok c s hw s' hw' :
  counter_ok s -> after c s hw = Some (s', hw') -> counter_ok s'.
Proof.
  intros Hs. destruct c; simpl; intros H;
    try (injection H as <- <-; exact Hs).
  - injection H as <- <-. unfold getBaselineCandidate.
    destruct (hasBaselineCandidate s); simpl; [|exact Hs].
    unfold counter_ok, BASELINE_CANDIDATE_MIN_READINGS. simpl. lia.
  - destruct (getDustDensity fuel numSamples s hw) as [d s1 hw1| |] eqn:E;
      try discriminate.
    injection H as <- <-.
    apply getDustDensity_state in E as (total & _ & _ & _ & ->).
    apply countReading_counter.
    set (v := scaledVoltage s _).
    destruct (trackMinimum_frame v s) as (_ & _ & _ & _ & Hf & Hr).
    destruct (_ =? 0).
    + unfold counter_ok. rewrite Hf, Hr. exact Hs.
    + destruct (updateRunningAverage_frame d (trackMinimum v s))
        as (_ & _ & (_ & _ & Hf' & Hr') & _).
      unfold counter_ok. rewrite Hf', Hr', Hf, Hr. exact Hs.
  - injection H as <- <-. rewrite getRunningAverage_state. exact Hs.
Qed.

(** On every state reached from construction, the candidate is not ready
    exactly while at most ten readings were taken since the last reset. *)
Lemma pending_iff_few_readings cs ty led pin n vref hw s' hw' :
  run cs (GP2YDustSensor_new ty led pin n vref) hw = Some (s', hw') ->
  counter_ok s' /\
  (hasBaselineCandidate s' = false <->
   readCount s' <= BASELINE_CANDIDATE_MIN_READINGS).
Proof.
  intros H.
  assert (counter_ok s') as Hok.
  { revert H. generalize (counter_ok_new ty led pin n vref).
    generalize (GP2YDustSensor_new ty led pin n vref) as s. revert hw.
    induction cs as [|c cs IH]; simpl; intros hw s Hs H.
    - injection H as <- <-. exact Hs.
    - destruct (after c s hw) as [[s1 hw1]|] eqn:E; [|discriminate].
      eapply IH; [|exact H]. eapply after_counter_ok; eauto. }
  split; [exact Hok|].
  unfold counter_ok, BASELINE_CANDIDATE_MIN_READINGS in *.
  destruct (hasBaselineCandidate s'); split; intros; try lia; congruence.
Qed.

End Tracker.

(** Calls made while the flag is clear all return the stored field and
    leave the sensor as it was. *)
Lemma poll_candidate_pending (n : nat) (s : GP2YDustSensor) :
  hasBaselineCandidate s = false ->
  poll_candidate n s = (replicate n (currentBaselineCandidate s), s).
Proof.
  intros H. induction n as [|n IH]; simpl; [reflexivity|].
  rewrite (getBaselineCandidate_pending s H), IH. reflexivity.
Qed.

(** C3, at the inputs where the code departs from it.  A call that
    consumes a candidate hands out [minDustVoltage] but stores
    [maxZeroDustVoltage] in [currentBaselineCandidate]: line 102 reads
    [minDustVoltage] after line 101 has reset it.  The calls made
    afterwards, while the next candidate is not ready, return the same
    value every time and change nothing, but that value is the profile's
    maximum and not the candidate handed out before. *)
Theorem pending_calls_return_profile_maximum (n : nat)
    (s : GP2YDustSensor) :
  hasBaselineCandidate s = true ->
  let '(candidate, s1) := getBaselineCandidate s in
  candidate = minDustVoltage s /\
  hasBaselineCandidate s1 = false /\
  poll_candidate n s1 = (replicate n (maxZeroDustVoltage s), s1).
Proof.
  intros H. unfold getBaselineCandidate. rewrite H. cbn [negb].
  split; [reflexivity|]. split; [reflexivity|].
  rewrite poll_candidate_pending by reflexivity. reflexivity.
Qed.

Lemma pending_calls_return_profile_maximum_witness :
  hasBaselineCandidate ready_state = true /\
  fst (getBaselineCandidate ready_state) = S754_finite false 16384000 (-25) /\
  fst (poll_candidate 2 (snd (getBaselineCandidate ready_state)))
  = [lit 11 10; lit 11 10] /\
  ltb (fst (getBaselineCandidate ready_state)) (lit 11 10) = true.
Proof.
  assert (hasBaselineCandidate ready_state = true) as H
    by (vm_compute; reflexivity).
  split; [exact H|].
  pose proof (pending_calls_return_profile_maximum 2 ready_state H) as P.
  destruct (getBaselineCandidate ready_state) as [c s1].
  destruct P as (P1 & _ & P3). cbn [fst snd]. rewrite P3, P1.
  vm_compute. auto.
Defined.

(** C4. When the candidate-ready flag is set, one call of
    [getBaselineCandidate] returns the tracked minimum [minDustVoltage] and
    resets the tracker: [readCount] to 0, the flag to false, the tracked
    minimum (and the stored candidate) to [maxZeroDustVoltage]; everything
    else is untouched.  The call after that finds the flag clear: it
    consumes nothing and leaves the state alone. *)
Theorem baseline_candidate_consumed_once (s : GP2YDustSensor) :
  hasBaselineCandidate s = true ->
  let '(candidate, s') := getBaselineCandidate s in
  candidate = minDustVoltage s /\
  readCount s' = 0 /\
  hasBaselineCandidate s' = false /\
  minDustVoltage s' = maxZeroDustVoltage s /\
  currentBaselineCandidate s' = maxZeroDustVoltage s /\
  same_profile s s' /\ same_scaling s s' /\ same_window s s' /\
  zeroDustVoltage s' = zeroDustVoltage s /\
  getBaselineCandidate s' = (currentBaselineCandidate s', s').
Proof.
  intros H. unfold getBaselineCandidate at 1. rewrite H. simpl.
  unfold same_profile, same_scaling, same_window. simpl.
  repeat split.
Qed.

Lemma baseline_candidate_consumed_once_witness :
  hasBaselineCandidate ready_state = true /\
  fst (getBaselineCandidate ready_state) = minDustVoltage ready_state /\
  readCount (snd (getBaselineCandidate ready_state)) = 0.
Proof.
  assert (hasBaselineCandidate ready_state = true) as H
    by (vm_compute; reflexivity).
  split; [exact H|].
  pose proof (baseline_candidate_consumed_once ready_state H) as P.
  destruct (getBaselineCandidate ready_state) as [c s'].
  destruct P as (P1 & P2 & _). split; [exact P1 | exact P2].
Defined.

(** C8. [setBaseline v] stores any [float] as it is, [getBaseline] then
    returns exactly that value, and no other field changes. *)
Theorem setBaseline_getBaseline (v : f32) (s : GP2YDustSensor) :
  let s' := setBaseline v s in
  getBaseline s' = (v, s') /\
  same_profile s s' /\ same_scaling s s' /\ same_tracker s s' /\
  same_window s s'.
Proof.
  unfold same_profile, same_scaling, same_tracker, same_window.
  simpl. repeat split.
Qed.

(** C5. The tracked minimum lies in
    [[minZeroDustVoltage, maxZeroDustVoltage]] after construction, and every
    call that returns keeps it there: [getDustDensity] either leaves it or
    lowers it to a voltage strictly below it and inside the range,
    [getBaselineCandidate] either leaves it or resets it to
    [maxZeroDustVoltage], and no other call changes it. *)
Theorem tracked_minimum_invariant :
  (forall ty led pin n vref,
      tracked_in_range (GP2YDustSensor_new ty led pin n vref)) /\
  (forall c s hw s' hw',
      tracked_in_range s ->
      after c s hw = Some (s', hw') ->
      tracked_in_range s' /\
      match c with
      | CallGetDustDensity _ _ =>
          minDustVoltage s' = minDustVoltage s \/
          (ltb (minDustVoltage s') (minDustVoltage s) = true /\
           leb (minZeroDustVoltage s) (minDustVoltage s') = true /\
           leb (minDustVoltage s') (maxZeroDustVoltage s) = true)
      | CallGetBaselineCandidate =>
          minDustVoltage s' =
          if hasBaselineCandidate s then maxZeroDustVoltage s
          else minDustVoltage s
      | _ => minDustVoltage s' = minDustVoltage s
      end).
Proof.
  split; [apply tracked_in_range_new|].
  intros c s hw s' hw' Hs H.
  destruct c; simpl in H;
    try (injection H as <- <-; split; [exact Hs | reflexivity]).
  - (* getBaselineCandidate *)
    injection H as <- <-. unfold getBaselineCandidate.
    destruct (hasBaselineCandidate s); simpl; [|split; [exact Hs|reflexivity]].
    destruct Hs as [H1 H2]. split; [|reflexivity].
    split; simpl.
    + exact (leb_trans _ _ _ H1 H2).
    + exact (leb_refl_right _ _ H2).
  - (* getDustDensity *)
    destruct (getDustDensity fuel numSamples s hw) as [d s1 hw1| |] eqn:E;
      try discriminate.
    injection H as <- <-.
    apply getDustDensity_state in E as (total & _ & _ & _ & ->).
    set (v := scaledVoltage s _).
    set (s2 := if _ =? 0 then _ else _).
    destruct (countReading_frame s2)
      as ((_ & _ & _ & _ & Hmin & Hmax & _) & _ & _ & _ & Htracked).
    assert (minDustVoltage s2 = minDustVoltage (trackMinimum v s) /\
            minZeroDustVoltage s2 = minZeroDustVoltage (trackMinimum v s) /\
            maxZeroDustVoltage s2 = maxZeroDustVoltage (trackMinimum v s))
      as (E1 & E2 & E3).
    { subst s2. destruct (_ =? 0); [auto|].
      destruct (updateRunningAverage_frame d (trackMinimum v s))
        as ((_ & _ & _ & _ & ? & ? & _) & _ & (? & _) & _). auto. }
    pose proof (trackMinimum_in_range v s Hs) as [R1 R2].
    split.
    + unfold tracked_in_range.
      rewrite Htracked, Hmin, Hmax, E1, E2, E3. auto.
    + rewrite Htracked, E1.
      destruct (trackMinimum_cases v s) as [-> | (-> & ? & ? & ?)]; auto.
  - (* getRunningAverage *)
    injection H as <- <-. rewrite getRunningAverage_state.
    split; [exact Hs | reflexivity].
Qed.

Lemma tracked_minimum_invariant_witness :
  tracked_in_range scenario_sensor /\
  match after (CallGetDustDensity 1 1) scenario_sensor (constant_adc 100) with
  | Some (s', _) =>
      tracked_in_range s' /\
      (minDustVoltage s' = minDustVoltage scenario_sensor \/
       (ltb (minDustVoltage s') (minDustVoltage scenario_sensor) = true /\
        leb (minZeroDustVoltage scenario_sensor) (minDustVoltage s') = true /\
        leb (minDustVoltage s') (maxZeroDustVoltage scenario_sensor) = true))
  | None => False
  end.
Proof.
  assert (tracked_in_range scenario_sensor) as H0
    by (split; vm_compute; reflexivity).
  split; [exact H0|].
  destruct (after (CallGetDustDensity 1 1) scenario_sensor (constant_adc 100))
    as [[s' hw']|] eqn:E.
  - exact (proj2 tracked_minimum_invariant (CallGetDustDensity 1 1)
             scenario_sensor (constant_adc 100) s' hw' H0 E).
  - vm_compute in E. discriminate E.
Defined.

(** ** The running-average window *)

Section Window.

Lemma updateRunningAverage_window v s :
  runningAverageBuffer (updateRunningAverage v s)
  = <[Z.to_nat (nextRunningAverageCounter s) := Ints.to_int16 v]>
      (runningAverageBuffer s) /\
  nextRunningAverageCounter (updateRunningAverage v s)
  = (if nextRunningAverageCounter s + 1 >=? runningAverageCount s
     then 0 else nextRunningAverageCounter s + 1) /\
  runningAverageCount (updateRunningAverage v s) = runningAverageCount s.
Proof.
  unfold updateRunningAverage. simpl.
  destruct (_ >=? _); simpl; auto.
Qed.

Lemma window_ok_new ty led pin n vref :
  1 <= n -> window_ok (GP2YDustSensor_new ty led pin n vref).
Proof.
  intros Hn. unfold window_ok. simpl.
  destruct (Z.eqb_spec n 0); [lia|].
  rewrite length_replicate. lia.
Qed.

(** The store of [updateRunningAverage] is always inside the buffer. *)
Lemma window_ok_update v s :
  window_ok s ->
  window_ok (updateRunningAverage v s) /\
  (Z.to_nat (nextRunningAverageCounter s)
   < length (runningAverageBuffer s))%nat.
Proof.
  intros [Hi Hlen].
  destruct (updateRunningAverage_window v s) as (Hb & Hn & Hc).
  unfold window_ok. rewrite Hb, Hn, Hc, length_insert.
  split; [|lia].
  destruct (Z.geb_spec (nextRunningAverageCounter s + 1)
                       (runningAverageCount s)); lia.
Qed.

Lemma push_all_snoc vs v s :
  push_all (vs ++ [v]) s = updateRunningAverage v (push_all vs s).
Proof. unfold push_all. rewrite foldl_app. reflexivity. Qed.

Lemma push_all_count vs s :
  runningAverageCount (push_all vs s) = runningAverageCount s.
Proof.
  induction vs as [|v vs IH] using rev_ind; [reflexivity|].
  rewrite push_all_snoc.
  destruct (updateRunningAverage_window v (push_all vs s)) as (_ & _ & ->).
  exact IH.
Qed.

(** Filling an empty window from slot 0, short of its capacity. *)
Lemma push_all_partial (n : nat) (s : GP2YDustSensor) (vs : list Z) :
  runningAverageBuffer s = replicate n (-1) ->
  nextRunningAverageCounter s = 0 ->
  runningAverageCount s = Z.of_nat n ->
  (length vs < n)%nat ->
  runningAverageBuffer (push_all vs s)
  = map Ints.to_int16 vs ++ replicate (n - length vs) (-1) /\
  nextRunningAverageCounter (push_all vs s) = Z.of_nat (length vs).
Proof.
  intros Hb Hi Hc.
  induction vs as [|v vs IH] using rev_ind; intros Hlen.
  - simpl. rewrite Hb, Hi, Nat.sub_0_r. auto.
  - rewrite length_app in Hlen. simpl in Hlen.
    destruct IH as [IHb IHi]; [lia|].
    rewrite push_all_snoc.
    destruct (updateRunningAverage_window v (push_all vs s))
      as (-> & -> & _).
    rewrite push_all_count, IHb, IHi, Hc, Nat2Z.id.
    rewrite length_app, map_app. simpl. split.
    + rewrite insert_app_r_alt by (rewrite length_map; lia).
      rewrite length_map, Nat.sub_diag.
      replace (n - length vs)%nat with (S (n - (length vs + 1)))%nat by lia.
      simpl. rewrite <- app_assoc. reflexivity.
    + destruct (Z.geb_spec (Z.of_nat (length vs) + 1) (Z.of_nat n)); lia.
Qed.

(** Filling it exactly: every slot written once, the index back at 0. *)
Lemma push_all_full (n : nat) (s : GP2YDustSensor) (vs : list Z) :
  runningAverageBuffer s = replicate n (-1) ->
  nextRunningAverageCounter s = 0 ->
  runningAverageCount s = Z.of_nat n ->
  length vs = n -> (1 <= n)%nat ->
  runningAverageBuffer (push_all vs s) = map Ints.to_int16 vs /\
  nextRunningAverageCounter (push_all vs s) = 0.
Proof.
  intros Hb Hi Hc Hlen Hn.
  destruct vs as [|v vs _] using rev_ind; [simpl in Hlen; lia|].
  rewrite length_app in Hlen. simpl in Hlen.
  destruct (push_all_partial n s vs Hb Hi Hc) as [Pb Pi]; [lia|].
  rewrite push_all_snoc.
  destruct (updateRunningAverage_window v (push_all vs s)) as (-> & -> & _).
  rewrite push_all_count, Pb, Pi, Hc, Nat2Z.id, map_app. simpl. split.
  - rewrite insert_app_r_alt by (rewrite length_map; lia).
    rewrite length_map, Nat.sub_diag.
    replace (n - length vs)%nat with 1%nat by lia. reflexivity.
  - destruct (Z.geb_spec (Z.of_nat (length vs) + 1) (Z.of_nat n)); lia.
Qed.

(** One value more than the capacity: the newest value lands in slot 0,
    where the oldest was. *)
Lemma push_all_overflow (n : nat) (s : GP2YDustSensor)
    (v0 : Z) (mid : list Z) (vlast : Z) :
  runningAverageBuffer s = replicate n (-1) ->
  nextRunningAverageCounter s = 0 ->
  runningAverageCount s = Z.of_nat n ->
  n = S (length mid) ->
  runningAverageBuffer (push_all (v0 :: mid ++ [vlast]) s)
  = map Ints.to_int16 (vlast :: mid).
Proof.
  intros Hb Hi Hc Hn.
  change (v0 :: mid ++ [vlast]) with ((v0 :: mid) ++ [vlast]).
  rewrite push_all_snoc.
  destruct (push_all_full n s (v0 :: mid) Hb Hi Hc) as [Fb Fi];
    [simpl; lia | lia |].
  destruct (updateRunningAverage_window vlast (push_all (v0 :: mid) s))
    as (-> & _ & _).
  rewrite Fb, Fi. reflexivity.
Qed.

Lemma getRunningAverage_enabled s :
  runningAverageCount s <> 0 ->
  getRunningAverage s = (average_of_slots (runningAverageBuffer s), s).
Proof.
  intros H. unfold getRunningAverage, average_of_slots.
  apply Z.eqb_neq in H. rewrite H.
  destruct (average_loop _ _ _) as [ra sc].
  destruct (sc =? 0); reflexivity.
Qed.

(** An empty slot adds nothing to the sum and nothing to the divisor. *)
Lemma average_loop_skips_empty before rest ra sc :
  average_loop (before ++ (-1) :: rest) ra sc
  = average_loop (before ++ rest) ra sc.
Proof.
  revert ra sc. induction before as [|x before IH]; intros ra sc; simpl.
  - reflexivity.
  - destruct (x =? -1); apply IH.
Qed.

(** Without empty slots the divisor is the number of slots. *)
Lemma average_loop_count buf :
  forall ra sc,
    Forall (fun x => x <> -1) buf ->
    0 <= sc -> sc + Z.of_nat (length buf) <= 65535 ->
    snd (average_loop buf ra sc) = sc + Z.of_nat (length buf).
Proof.
  induction buf as [|x buf IH]; intros ra sc Hall Hsc Hmax; simpl.
  - lia.
  - simpl in Hmax. apply Forall_cons in Hall as [Hx Hall].
    apply Z.eqb_neq in Hx. rewrite Hx.
    rewrite IH; [|exact Hall|apply to_uint16_range|];
      rewrite to_uint16_small; lia.
Qed.

End Window.

(** C7, as the code has it.  With a window of capacity [c >= 1], after
    [c + 1] values were pushed the first value is gone: the slots hold the
    [c] most recent values, each reduced to [int16_t], the newest in slot 0,
    and the reported average is computed from these slots alone; its
    divisor is [c] when none of these values is stored as [-1]. *)
Theorem ring_forgets_oldest (ty : GP2YDustSensorType) (led pin : Z)
    (vref : f32) (c : Z) (v0 : Z) (vs : list Z) :
  1 <= c <= 65535 ->
  Z.of_nat (length vs) = c ->
  let s := push_all (v0 :: vs) (GP2YDustSensor_new ty led pin c vref) in
  let recent :=
    map Ints.to_int16
        (drop (Z.to_nat (c - 1)) vs ++ take (Z.to_nat (c - 1)) vs) in
  runningAverageBuffer s = recent /\
  getRunningAverage s = (average_of_slots recent, s) /\
  (Forall (fun v => Ints.to_int16 v <> -1) vs ->
   snd (average_loop recent (of_int 0) 0) = c).
Proof.
  intros Hc Hlen s recent.
  assert (exists mid vlast, vs = mid ++ [vlast]) as (mid & vlast & ->).
  { destruct vs as [|v vs _] using rev_ind; [simpl in Hlen; lia|]. eauto. }
  rewrite length_app in Hlen. simpl in Hlen.
  assert (Z.to_nat (c - 1) = length mid) as Hmid by lia.
  assert (recent = map Ints.to_int16 (vlast :: mid)) as Hrecent.
  { subst recent. rewrite Hmid, drop_app_length, take_app_length.
    reflexivity. }
  assert (runningAverageBuffer s = recent) as Hbuf.
  { rewrite Hrecent. subst s.
    apply (push_all_overflow (Z.to_nat c)); simpl.
    - destruct (Z.eqb_spec c 0); [lia | reflexivity].
    - reflexivity.
    - lia.
    - lia. }
  split; [exact Hbuf|]. split.
  - rewrite <- Hbuf. apply getRunningAverage_enabled.
    subst s. rewrite push_all_count. simpl. lia.
  - intros Hall. rewrite Hrecent, average_loop_count.
    + rewrite length_map. simpl. lia.
    + apply Forall_map. apply Forall_app in Hall as [Hm Hl].
      apply Forall_cons. split; [|exact Hm].
      apply (Forall_inv Hl).
    + lia.
    + rewrite length_map. simpl. lia.
Qed.

Lemma ring_forgets_oldest_witness :
  1 <= 3 <= 65535 /\ Z.of_nat (length [20; 30; 41]) = 3 /\
  getRunningAverage
    (push_all [10; 20; 30; 41] (GP2YDustSensor_new GP2Y1014AU0F 2 0 3 (of_int 5)))
  = (30, push_all [10; 20; 30; 41]
           (GP2YDustSensor_new GP2Y1014AU0F 2 0 3 (of_int 5))).
Proof.
  split; [lia|]. split; [reflexivity|].
  exact (proj1 (proj2 (ring_forgets_oldest GP2Y1014AU0F 2 0 (of_int 5) 3 10
                         [20; 30; 41] ltac:(lia) eq_refl))).
Defined.

(** The rounded mean of the last [c] values is not what a window holding
    65535 reports: the value is stored as the empty marker. *)
Lemma ring_mean_counterexample :
  fst (getRunningAverage (push_all [5; 65535] (fresh_window 1))) = 0 /\
  rounded_mean [65535] = 65535.
Proof. split; vm_compute; reflexivity. Qed.

(** C9. A sensor constructed with a window of 0 answers 65535, which is
    [-1] as [uint16_t], to every [getRunningAverage], whatever calls came
    before, and the call leaves the sensor as it was. *)
Theorem running_average_disabled (ty : GP2YDustSensorType) (led pin : Z)
    (vref : f32) (cs : list call) (hw : hardware)
    (s' : GP2YDustSensor) (hw' : hardware) :
  run cs (GP2YDustSensor_new ty led pin 0 vref) hw = Some (s', hw') ->
  getRunningAverage s' = (65535, s').
Proof.
  intros H. apply run_same_profile in H.
  destruct H as (_ & _ & _ & _ & _ & _ & _ & Hcount). simpl in Hcount.
  unfold getRunningAverage. rewrite Hcount. reflexivity.
Qed.

Lemma running_average_disabled_witness :
  getRunningAverage (setBaseline (lit 4 10)
                       (GP2YDustSensor_new GP2Y1010AU0F 2 0 0 (of_int 5)))
  = (65535, setBaseline (lit 4 10)
              (GP2YDustSensor_new GP2Y1010AU0F 2 0 0 (of_int 5))).
Proof.
  apply (running_average_disabled GP2Y1010AU0F 2 0 (of_int 5)
           [CallSetBaseline (lit 4 10)] (constant_adc 0) _ (constant_adc 0)).
  reflexivity.
Defined.

(** ** Sampling: how many conversions, how long *)

(** For 1 to 255 samples the loop ends after exactly that many conversions
    and [numSamples * 10 ms] of delays and conversions, a conversion taken
    at 100 us. *)
Lemma sampling_terminates (n : Z) (s : GP2YDustSensor) (hw : hardware) :
  1 <= n <= 255 ->
  exists total hw',
    sample_loop (Z.to_nat n) n s 0 0 hw = Finished total hw' /\
    samples_in (trace hw') = samples_in (trace hw) + n /\
    elapsed_us 100 (trace hw') = elapsed_us 100 (trace hw) + n * 10000.
Proof.
  intros Hn.
  destruct (sample_loop_from_zero s n 0 hw Hn) as (hw' & Hrun & Hs & Hu).
  rewrite Nat.add_0_r in Hrun.
  eexists _, hw'. split; [exact Hrun|].
  rewrite Hs, Hu. lia.
Qed.

(** C1, at the input where the code departs from it.  Asked for 256
    samples, [getDustDensity] never leaves its sampling loop: the
    [uint8_t] counter wraps from 255 to 0 and stays below [numSamples], so
    after any number of iterations the call is still sampling and has
    already taken that many conversions. *)
Theorem getDustDensity_256_never_returns (fuel : nat) (s : GP2YDustSensor)
    (hw : hardware) :
  exists hw',
    getDustDensity fuel 256 s hw = StillSampling hw' /\
    reads hw' = (reads hw + fuel)%nat /\
    samples_in (trace hw') = samples_in (trace hw) + Z.of_nat fuel.
Proof.
  destruct (sample_loop_never_exits s 256 fuel 0 0 hw)
    as (i' & total' & hw' & Hrun & Hr & Hs); try lia.
  exists hw'. unfold getDustDensity. rewrite Hrun. auto.
Qed.

(** ** The density *)

(** For 1 to 255 samples the call returns as soon as the density
    converts. *)
Lemma getDustDensity_converts (n : Z) (extra : nat) (s : GP2YDustSensor)
    (hw : hardware) (d : Z) :
  1 <= n <= 255 ->
  dustDensity s (meanVoltage s hw n) = Some d ->
  exists s' hw',
    getDustDensity (Z.to_nat n + extra) n s hw = Returns d s' hw'.
Proof.
  intros Hn Hd.
  destruct (sample_loop_from_zero s n extra hw Hn) as (hw' & Hrun & _).
  destruct (getDustDensity_returns _ n s hw _ hw' d Hrun) as [s' H];
    [lia | exact Hd |].
  exists s', hw'. exact H.
Qed.

(** C2, as the code has it.  For 1 to 255 samples whose scaled mean
    voltage is at or above the baseline, [getDustDensity] returns
    [(scaledVoltage - zeroDustVoltage) / sensitivity * 100], computed in
    binary32 and truncated toward zero by the conversion to [uint16_t],
    whenever that conversion is defined; for the GP2Y1014AU0F with a 5.0 V
    reference and a raw mean of 400 the result is 270. *)
Theorem density_above_baseline_truncates :
  (forall n extra s hw d,
      1 <= n <= 255 ->
      leb (zeroDustVoltage s) (meanVoltage s hw n) = true ->
      F32.to_uint16
        (mul (div (sub (meanVoltage s hw n) (zeroDustVoltage s))
                  (sensitivity s))
             (of_int 100)) = Some d ->
      exists s' hw',
        getDustDensity (Z.to_nat n + extra) n s hw = Returns d s' hw') /\
  (exists s' hw',
      getDustDensity 20 20 scenario_sensor (constant_adc 400)
      = Returns 270 s' hw').
Proof.
  split.
  - intros n extra s hw d Hn Hge Hd.
    apply getDustDensity_converts; [exact Hn|].
    rewrite (dustDensity_above s _ Hge). exact Hd.
  - vm_compute. eexists _, _. reflexivity.
Qed.

Lemma density_above_baseline_truncates_witness :
  exists s' hw',
    getDustDensity 1 1 scenario_sensor (constant_adc 400) = Returns 270 s' hw'.
Proof.
  apply (proj1 density_above_baseline_truncates 1 0%nat scenario_sensor
           (constant_adc 400) 270).
  - lia.
  - vm_compute. reflexivity.
  - vm_compute. reflexivity.
Defined.

(** The scenario of the specification does not give 271. *)
Lemma density_scenario_counterexample :
  ~ exists s' hw',
      getDustDensity 20 20 scenario_sensor (constant_adc 400)
      = Returns 271 s' hw'.
Proof. intros (s' & hw' & H). vm_compute in H. discriminate H. Qed.

(** C6, as the code has it.  With a finite baseline and a positive
    sensitivity, every scaled voltage less than or equal to
    [zeroDustVoltage] makes [getDustDensity] (1 to 255 samples) return
    exactly 0. *)
Theorem density_floor (n : Z) (extra : nat) (s : GP2YDustSensor)
    (hw : hardware) :
  1 <= n <= 255 ->
  leb (meanVoltage s hw n) (zeroDustVoltage s) = true ->
  is_finite (zeroDustVoltage s) = true ->
  ltb (of_int 0) (sensitivity s) = true ->
  exists s' hw',
    getDustDensity (Z.to_nat n + extra) n s hw = Returns 0 s' hw'.
Proof.
  intros Hn Hle Hfin Hpos.
  apply getDustDensity_converts; [exact Hn|].
  apply dustDensity_floor; assumption.
Qed.

Lemma density_floor_witness :
  exists s' hw',
    getDustDensity 1 1 scenario_sensor (constant_adc 100) = Returns 0 s' hw'.
Proof.
  apply (density_floor 1 0%nat scenario_sensor (constant_adc 100)).
  - lia.
  - vm_compute. reflexivity.
  - reflexivity.
  - reflexivity.
Defined.

(** An infinite voltage against an infinite baseline: the voltage is not
    above the baseline, the sensitivity is positive, and the density is
    the conversion of a NaN. *)
Lemma density_floor_counterexample :
  leb (meanVoltage unbounded_sensor (constant_adc 400) 20)
      (zeroDustVoltage unbounded_sensor) = true /\
  ltb (of_int 0) (sensitivity unbounded_sensor) = true /\
  getDustDensity 20 20 unbounded_sensor (constant_adc 400) = Undefined.
Proof. vm_compute. auto. Qed.

(** ** The scenarios of the specification, evaluated *)

Example scenario_raw_123 :
  exists s' hw',
    getDustDensity 20 20 scenario_sensor (constant_adc 123) = Returns 0 s' hw'.
Proof. vm_compute. eexists _, _. reflexivity. Qed.

Example scenario_default_takes_200ms :
  exists d s' hw',
    getDustDensity 20 default_numSamples scenario_sensor (constant_adc 123)
    = Returns d s' hw' /\
    samples_in (trace hw') = 20 /\ elapsed_us 100 (trace hw') = 200000.
Proof. vm_compute. eexists _, _, _. repeat split. Qed.

Example scenario_cold_start :
  fst (getRunningAverage scenario_sensor) = 0.
Proof. vm_compute. reflexivity. Qed.

Example scenario_two_values :
  fst (getRunningAverage (push_all [10; 20] scenario_sensor)) = 15.
Proof. vm_compute. reflexivity. Qed.

Example negative_slot_lowers_the_average :
  fst (getRunningAverage (push_all [65534; 10] (fresh_window 2))) = 4.
Proof. vm_compute. reflexivity. Qed.

(** A density of 65535 is within reach of the public interface: with the
    baseline set to about -325.7 V the reading is 65535, the window stores
    it as an empty slot and the average reads 0. *)
Example sentinel_reachable :
  match getDustDensity 20 20 (setBaseline (lit (-3257249) 10000) (fresh_window 1))
          (constant_adc 400) with
  | Returns d s' _ =>
      d = 65535 /\ runningAverageBuffer s' = [-1] /\
      fst (getRunningAverage s') = 0
  | _ => False
  end.
Proof. vm_compute. repeat split. Qed.

Example candidate_ready_after_eleven_readings :
  match ready_sensor with
  | Some (s, _) =>
      hasBaselineCandidate s = true /\ readCount s = 11 /\
      fst (getBaselineCandidate s) = scaledVoltage scenario_sensor 100 /\
      currentBaselineCandidate (snd (getBaselineCandidate s))
      = maxZeroDustVoltage s
  | None => False
  end.
Proof. vm_compute. repeat split. Qed.

Example literals_are_binary32 :
  lit 6 10 = S754_finite false 10066330 (-24) /\
  lit 9 10 = S754_finite false 15099494 (-24) /\
  lit 1 10 = S754_finite false 13421773 (-27) /\
  lit 11 10 = S754_finite false 9227469 (-23) /\
  scaledVoltage scenario_sensor 400 = lit 1953125 1000000.
Proof. vm_compute. repeat split. Qed.

(** * Further properties of the driver *)

(** ** The pulse train *)

Section PulseTrain.

Variable s : GP2YDustSensor.

Lemma samples_in_pulses (input : nat -> Z) (k : nat) :
  forall start, samples_in (pulses s input start k) = Z.of_nat k.
Proof.
  induction k as [|k IH]; intros start; [reflexivity|].
  cbn [pulses]. rewrite samples_in_app, IH. simpl. lia.
Qed.

Lemma elapsed_us_pulses (a : Z) (input : nat -> Z) (k : nat) :
  forall start,
    elapsed_us a (pulses s input start k) = Z.of_nat k * (9900 + a).
Proof.
  induction k as [|k IH]; intros start; [reflexivity|].
  cbn [pulses]. rewrite elapsed_us_app, IH. simpl. lia.
Qed.

Lemma cycle_trace hw :
  trace (delayMicroseconds 9620 (snd (readDustRawOnce s hw)))
  = trace hw ++ pulse s (adc hw (reads hw)).
Proof.
  unfold readDustRawOnce, analogRead, delayMicroseconds, digitalWrite, emit,
    pulse.
  simpl. rewrite <- !app_assoc. reflexivity.
Qed.

(** The loop appends one pulse per iteration and nothing else. *)
Lemma sample_loop_trace (n : Z) (k : nat) :
  forall (i total : Z) (hw : hardware) (extra : nat),
    0 <= i -> i + Z.of_nat k = n -> n <= 255 ->
    exists total' hw',
      sample_loop (k + extra) n s i total hw = Finished total' hw' /\
      adc hw' = adc hw /\
      reads hw' = (reads hw + k)%nat /\
      trace hw' = trace hw ++ pulses s (adc hw) (reads hw) k.
Proof.
  induction k as [|k IH]; intros i total hw extra Hi Hn Hmax.
  - exists total, hw. split.
    + destruct extra; cbn [sample_loop Nat.add];
        (replace (i <? n) with false by (symmetry; apply Z.ltb_ge; lia));
        reflexivity.
    + cbn [pulses]. rewrite app_nil_r. repeat split; lia.
  - cbn [sample_loop Nat.add pulses].
    replace (i <? n) with true by (symmetry; apply Z.ltb_lt; lia).
    pose proof (cycle_trace hw) as Htrace.
    destruct (cycle_effect s hw)
      as (v & hw1 & Hread & _ & Hadc & Hreads & _).
    rewrite Hread in *. cbn [snd] in Htrace.
    rewrite (to_uint8_small (i + 1)) by lia.
    destruct (IH (i + 1) (Ints.to_uint32 (total + v))
                 (delayMicroseconds 9620 hw1) extra)
      as (total' & hw' & Hrun & Ha & Hr & Ht); try lia.
    exists total', hw'. split; [exact Hrun|].
    rewrite Ha, Hr, Ht, Hadc, Hreads, Htrace, <- app_assoc.
    repeat split; lia.
Qed.

End PulseTrain.

(** X1. Asked for 1 to 255 samples and given fuel for them,
    [getDustDensity] always leaves its sampling loop.  When it returns, the
    board has seen exactly [numSamples] pulses and nothing else, each one
    LED on, 280 us, one conversion, LED off, 9620 us: [numSamples]
    conversions in [numSamples * 10 ms] at 100 us per conversion. *)
Theorem getDustDensity_pulse_train (n : Z) (extra : nat)
    (s : GP2YDustSensor) (hw : hardware) :
  1 <= n <= 255 ->
  match getDustDensity (Z.to_nat n + extra) n s hw with
  | StillSampling _ => False
  | Undefined => True
  | Returns _ _ hw' =>
      trace hw' = trace hw ++ pulses s (adc hw) (reads hw) (Z.to_nat n) /\
      reads hw' = (reads hw + Z.to_nat n)%nat /\
      samples_in (trace hw') = samples_in (trace hw) + n /\
      elapsed_us 100 (trace hw') = elapsed_us 100 (trace hw) + n * 10000
  end.
Proof.
  intros Hn.
  destruct (sample_loop_trace s n (Z.to_nat n) 0 0 hw extra)
    as (total & hw' & Hrun & _ & Hr & Ht); try lia.
  unfold getDustDensity. rewrite Hrun.
  destruct (processSamples n total s) as [[d s']|]; [|exact I].
  rewrite Ht, samples_in_app, elapsed_us_app, samples_in_pulses,
    elapsed_us_pulses.
  repeat split; lia.
Qed.

Lemma getDustDensity_pulse_train_witness :
  match getDustDensity 2 2 scenario_sensor (constant_adc 400) with
  | Returns _ _ hw' =>
      trace hw' = pulse scenario_sensor 400 ++ pulse scenario_sensor 400 /\
      elapsed_us 100 (trace hw') = 20000
  | _ => False
  end.
Proof.
  pose proof (getDustDensity_pulse_train 2 0 scenario_sensor
                (constant_adc 400) ltac:(lia)) as H.
  change (Z.to_nat 2 + 0)%nat with 2%nat in H.
  destruct (getDustDensity 2 2 scenario_sensor (constant_adc 400))
    as [d s' hw'| |] eqn:E.
  - destruct H as (Ht & _ & _ & Hu). split; [exact Ht | exact Hu].
  - vm_compute in E. discriminate E.
  - exact H.
Defined.

(** X2. Asked for 0 samples, [getDustDensity] takes no sample and divides
    the total by zero: the call is undefined on every sensor. *)
Theorem getDustDensity_zero_samples (fuel : nat) (s : GP2YDustSensor)
    (hw : hardware) :
  sample_loop fuel 0 s 0 0 hw = Finished 0 hw /\
  getDustDensity fuel 0 s hw = Undefined.
Proof.
  assert (sample_loop fuel 0 s 0 0 hw = Finished 0 hw) as H
    by (destruct fuel; reflexivity).
  split; [exact H|]. unfold getDustDensity. rewrite H. reflexivity.
Qed.

(** ** Counting readings *)

Section Readiness.

Lemma getDustDensity_counter fuel n s hw d s' hw' :
  getDustDensity fuel n s hw = Returns d s' hw' ->
  exists s1,
    s' = countReading s1 /\
    hasBaselineCandidate s1 = hasBaselineCandidate s /\
    readCount s1 = readCount s.
Proof.
  intros E. apply getDustDensity_state in E as (total & _ & _ & _ & ->).
  set (v := scaledVoltage s _).
  exists (if runningAverageCount s =? 0 then trackMinimum v s
          else updateRunningAverage d (trackMinimum v s)).
  split; [reflexivity|].
  destruct (trackMinimum_frame v s) as (_ & _ & _ & _ & Hf & Hr).
  destruct (_ =? 0); [auto|].
  destruct (updateRunningAverage_frame d (trackMinimum v s))
    as (_ & _ & (_ & _ & Hf' & Hr') & _).
  rewrite Hf', Hr'. auto.
Qed.

Lemma countReading_counts s :
  counter_ok s ->
  readCount (countReading s) = Z.min (readCount s + 1) 11 /\
  hasBaselineCandidate (countReading s) = (10 <? readCount s + 1).
Proof.
  unfold counter_ok, countReading, BASELINE_CANDIDATE_MIN_READINGS.
  destruct (hasBaselineCandidate s) eqn:E; simpl.
  - intros ->. rewrite E. split; [lia | reflexivity].
  - intros H. rewrite (to_uint16_small (readCount s + 1)) by lia.
    destruct (Z.gtb_spec (readCount s + 1) 10),
             (Z.ltb_spec 10 (readCount s + 1)); simpl; try lia;
      rewrite ?E; split; auto; lia.
Qed.

End Readiness.

(** X3. The candidate becomes ready with the eleventh reading after a
    reset and the counter stops there: after [k] readings in a row that
    return, [readCount] has grown by [k] up to 11 and the flag is set
    exactly when the count exceeds 10. *)
Theorem readings_until_ready (cs : list call) :
  forall s hw s' hw',
    counter_ok s ->
    forallb is_reading cs = true ->
    run cs s hw = Some (s', hw') ->
    readCount s' = Z.min (readCount s + Z.of_nat (length cs)) 11 /\
    hasBaselineCandidate s' = (10 <? readCount s + Z.of_nat (length cs)).
Proof.
  induction cs as [|c cs IH]; intros s hw s' hw' Hok Hall Hrun.
  - simpl in *. injection Hrun as <- <-.
    unfold counter_ok, BASELINE_CANDIDATE_MIN_READINGS in Hok.
    rewrite Z.add_0_r.
    destruct (hasBaselineCandidate s); destruct (Z.ltb_spec 10 (readCount s));
      split; auto; lia.
  - cbn [forallb] in Hall. apply andb_prop in Hall as [Hc Hall].
    cbn [run] in Hrun.
    destruct (after c s hw) as [[s1 hw1]|] eqn:E; [|discriminate].
    pose proof (after_counter_ok c s hw s1 hw1 Hok E) as Hok1.
    destruct (IH s1 hw1 s' hw' Hok1 Hall Hrun) as [Hr Hf].
    destruct c; try discriminate Hc. simpl in E.
    destruct (getDustDensity fuel numSamples s hw)
      as [d s2 hw2| |] eqn:E2; try discriminate.
    injection E as <- <-.
    apply getDustDensity_counter in E2 as (s0 & -> & Hf0 & Hr0).
    assert (counter_ok s0) as Hok0
      by (unfold counter_ok; rewrite Hf0, Hr0; exact Hok).
    destruct (countReading_counts s0 Hok0) as [Hc1 Hc2].
    rewrite Hr0 in Hc1, Hc2.
    assert (0 <= readCount s <= 11) as Hb.
    { unfold counter_ok, BASELINE_CANDIDATE_MIN_READINGS in Hok.
      destruct (hasBaselineCandidate s); lia. }
    rewrite Hr, Hf, Hc1. cbn [length].
    split.
    + lia.
    + destruct (Z.ltb_spec 10 (Z.min (readCount s + 1) 11 + Z.of_nat (length cs))),
               (Z.ltb_spec 10 (readCount s + Z.of_nat (S (length cs))));
        auto; lia.
Qed.

Lemma readings_until_ready_witness :
  hasBaselineCandidate ready_state = true /\ readCount ready_state = 11.
Proof.
  destruct (run (replicate 11 (CallGetDustDensity 1 1)) scenario_sensor
              (constant_adc 100)) as [[s' hw']|] eqn:E.
  - pose proof (readings_until_ready (replicate 11 (CallGetDustDensity 1 1))
                  scenario_sensor (constant_adc 100) s' hw'
                  (counter_ok_new _ _ _ _ _) eq_refl E) as [Hr Hf].
    unfold ready_state, ready_sensor. rewrite E.
    split; [exact Hf | exact Hr].
  - vm_compute in E. discriminate E.
Defined.

(** X4. Whatever calls were made since construction, the candidate-ready
    flag is clear exactly while at most ten readings were counted since the
    last reset, and [readCount] never passes 11. *)
Theorem flag_follows_counter (cs : list call) (ty : GP2YDustSensorType)
    (led pin n : Z) (vref : f32) (hw : hardware)
    (s' : GP2YDustSensor) (hw' : hardware) :
  run cs (GP2YDustSensor_new ty led pin n vref) hw = Some (s', hw') ->
  0 <= readCount s' <= 11 /\
  (hasBaselineCandidate s' = false <-> readCount s' <= 10).
Proof.
  intros H.
  destruct (pending_iff_few_readings cs ty led pin n vref hw s' hw' H)
    as [Hok Hiff].
  split; [|exact Hiff].
  unfold counter_ok, BASELINE_CANDIDATE_MIN_READINGS in Hok.
  destruct (hasBaselineCandidate s'); lia.
Qed.

Lemma flag_follows_counter_witness :
  0 <= readCount ready_state <= 11 /\
  (hasBaselineCandidate ready_state = false <-> readCount ready_state <= 10).
Proof.
  destruct (run (replicate 11 (CallGetDustDensity 1 1)) scenario_sensor
              (constant_adc 100)) as [[s' hw']|] eqn:E.
  - pose proof (flag_follows_counter _ GP2Y1014AU0F 2 0
                  default_runningAverageCount default_voltageReference
                  (constant_adc 100) s' hw' E) as H.
    unfold ready_state, ready_sensor. rewrite E. exact H.
  - vm_compute in E. discriminate E.
Defined.

(** ** What the calls keep *)

Section Kept.

Lemma window_ok_same_window s s' :
  same_window s s' -> runningAverageCount s' = runningAverageCount s ->
  window_ok s -> window_ok s'.
Proof.
  unfold window_ok. intros [Hb Hn] Hc. rewrite Hb, Hn, Hc. auto.
Qed.

Lemma after_window_ok c s hw s' hw' :
  window_ok s -> after c s hw = Some (s', hw') -> window_ok s'.
Proof.
  intros Hs. destruct c; simpl; intros H;
    try (injection H as <- <-; exact Hs).
  - injection H as <- <-.
    destruct (getBaselineCandidate_frame s)
      as ((_ & _ & _ & _ & _ & _ & _ & Hc) & _ & Hw & _).
    exact (window_ok_same_window _ _ Hw Hc Hs).
  - destruct (getDustDensity fuel numSamples s hw) as [d s1 hw1| |] eqn:E;
      try discriminate.
    injection H as <- <-.
    apply getDustDensity_state in E as (total & _ & _ & _ & ->).
    set (v := scaledVoltage s _).
    destruct (trackMinimum_frame v s)
      as ((_ & _ & _ & _ & _ & _ & _ & Hc) & _ & Hw & _).
    pose proof (window_ok_same_window _ _ Hw Hc Hs) as H1.
    set (s2 := if _ =? 0 then _ else _).
    assert (window_ok s2) as H2.
    { subst s2. destruct (_ =? 0); [exact H1|].
      apply window_ok_update, H1. }
    destruct (countReading_frame s2)
      as ((_ & _ & _ & _ & _ & _ & _ & Hc2) & _ & Hw2 & _).
    exact (window_ok_same_window _ _ Hw2 Hc2 H2).
  - injection H as <- <-. rewrite getRunningAverage_state. exact Hs.
Qed.

(** An invariant of every call holds along a sequence of calls. *)
Lemma run_invariant (P : GP2YDustSensor -> Prop) :
  (forall c s hw s' hw', P s -> after c s hw = Some (s', hw') -> P s') ->
  forall cs s hw s' hw', P s -> run cs s hw = Some (s', hw') -> P s'.
Proof.
  intros Hstep. induction cs as [|c cs IH]; simpl; intros s hw s' hw' Hs H.
  - injection H as <- <-. exact Hs.
  - destruct (after c s hw) as [[s1 hw1]|] eqn:E; [|discriminate].
    eapply IH; [|exact H]. eapply Hstep; eauto.
Qed.

Lemma after_settings c s hw s' hw' :
  is_setter c = false ->
  after c s hw = Some (s', hw') ->
  zeroDustVoltage s' = zeroDustVoltage s /\ same_scaling s s'.
Proof.
  intros Hc. destruct c; try discriminate Hc; simpl; intros H;
    try solve [injection H as <- <-; unfold same_scaling; auto].
  - injection H as <- <-.
    destruct (getBaselineCandidate_frame s) as (_ & Hsc & _ & Hz). auto.
  - destruct (getDustDensity fuel numSamples s hw) as [d s1 hw1| |] eqn:E;
      try discriminate.
    injection H as <- <-.
    apply getDustDensity_state in E as (total & _ & _ & _ & ->).
    set (v := scaledVoltage s _).
    set (s2 := if _ =? 0 then _ else _).
    destruct (countReading_frame s2) as (_ & (Hc1 & Hs1) & _ & Hz1 & _).
    destruct (trackMinimum_frame v s) as (_ & (Hc0 & Hs0) & _ & Hz0 & _).
    assert (zeroDustVoltage s2 = zeroDustVoltage s /\
            calibrationFactor s2 = calibrationFactor s /\
            sensitivity s2 = sensitivity s) as (E1 & E2 & E3).
    { subst s2. destruct (_ =? 0); [auto|].
      destruct (updateRunningAverage_frame d (trackMinimum v s))
        as (_ & (Hc2 & Hs2) & _ & Hz2).
      rewrite Hz2, Hc2, Hs2. auto. }
    unfold same_scaling. rewrite Hz1, Hc1, Hs1, E1, E2, E3. auto.
  - injection H as <- <-. rewrite getRunningAverage_state.
    unfold same_scaling. auto.
Qed.

Lemma candidate_in_range_new ty led pin n vref :
  candidate_in_range (GP2YDustSensor_new ty led pin n vref).
Proof. destruct ty; split; vm_compute; reflexivity. Qed.

(** Both range invariants of the tracker, kept together. *)
Lemma after_tracker_ranges c s hw s' hw' :
  tracked_in_range s /\ candidate_in_range s ->
  after c s hw = Some (s', hw') ->
  tracked_in_range s' /\ candidate_in_range s'.
Proof.
  intros [Ht Hcand]. destruct c; simpl; intros H;
    try (injection H as <- <-; split; assumption).
  - injection H as <- <-. unfold getBaselineCandidate.
    destruct (hasBaselineCandidate s); simpl; [|split; assumption].
    destruct Ht as [H1 H2].
    pose proof (leb_trans _ _ _ H1 H2) as Hmm.
    pose proof (leb_refl_right _ _ H2) as Hrr.
    split; split; assumption.
  - destruct (getDustDensity fuel numSamples s hw) as [d s1 hw1| |] eqn:E;
      try discriminate.
    injection H as <- <-.
    apply getDustDensity_state in E as (total & _ & _ & _ & ->).
    set (v := scaledVoltage s _).
    set (s2 := if _ =? 0 then _ else _).
    pose proof (trackMinimum_in_range v s Ht) as Ht1.
    assert (candidate_in_range (trackMinimum v s)) as Hc1.
    { unfold candidate_in_range, trackMinimum. destruct (_ && _); exact Hcand. }
    assert (tracked_in_range s2 /\ candidate_in_range s2) as [Ht2 Hc2].
    { subst s2. destruct (_ =? 0); [auto|].
      destruct (updateRunningAverage_frame d (trackMinimum v s))
        as ((_ & _ & _ & _ & Hmin & Hmax & _) & _ & (Hm & Hcc & _) & _).
      unfold tracked_in_range, candidate_in_range.
      rewrite Hmin, Hmax, Hm, Hcc. auto. }
    destruct (countReading_frame s2)
      as ((_ & _ & _ & _ & Hmin & Hmax & _) & _ & _ & _ & Hm).
    assert (currentBaselineCandidate (countReading s2)
            = currentBaselineCandidate s2) as Hcc.
    { unfold countReading. destruct (negb _); [destruct (_ >? _)|];
        reflexivity. }
    unfold tracked_in_range, candidate_in_range.
    rewrite Hmin, Hmax, Hm, Hcc. auto.
  - injection H as <- <-. rewrite getRunningAverage_state. auto.
Qed.

End Kept.

(** X5. On a sensor constructed with a window of capacity 1 or more, after
    any sequence of calls the buffer still has exactly that many slots and
    the write index is inside it: no store of [updateRunningAverage] ever
    falls outside the buffer. *)
Theorem window_store_in_range (cs : list call) (ty : GP2YDustSensorType)
    (led pin c : Z) (vref : f32) (hw : hardware)
    (s' : GP2YDustSensor) (hw' : hardware) :
  1 <= c ->
  run cs (GP2YDustSensor_new ty led pin c vref) hw = Some (s', hw') ->
  Z.of_nat (length (runningAverageBuffer s')) = c /\
  0 <= nextRunningAverageCounter s' < c /\
  (Z.to_nat (nextRunningAverageCounter s')
   < length (runningAverageBuffer s'))%nat.
Proof.
  intros Hc H.
  assert (window_ok s') as [Hi Hlen].
  { eapply (run_invariant window_ok after_window_ok); [|exact H].
    apply window_ok_new, Hc. }
  apply run_same_profile in H.
  destruct H as (_ & _ & _ & _ & _ & _ & _ & Hcount). simpl in Hcount.
  rewrite Hcount in *. repeat split; lia.
Qed.

Lemma window_store_in_range_witness :
  Z.of_nat (length (runningAverageBuffer ready_state)) = 60 /\
  0 <= nextRunningAverageCounter ready_state < 60.
Proof.
  destruct (run (replicate 11 (CallGetDustDensity 1 1)) scenario_sensor
              (constant_adc 100)) as [[s' hw']|] eqn:E.
  - destruct (window_store_in_range _ GP2Y1014AU0F 2 0 60
                default_voltageReference (constant_adc 100) s' hw'
                ltac:(lia) E) as (H1 & H2 & _).
    unfold ready_state, ready_sensor. rewrite E. split; assumption.
  - vm_compute in E. discriminate E.
Defined.

(** X7. The baseline, the sensitivity and the calibration factor change
    only through their setters: readings, [getBaselineCandidate] and the
    other queries leave all three as they were, so a candidate is never
    adopted unless the caller passes it to [setBaseline]. *)
Theorem settings_change_only_by_setters (cs : list call)
    (s : GP2YDustSensor) (hw : hardware) (s' : GP2YDustSensor)
    (hw' : hardware) :
  forallb (fun c => negb (is_setter c)) cs = true ->
  run cs s hw = Some (s', hw') ->
  zeroDustVoltage s' = zeroDustVoltage s /\
  sensitivity s' = sensitivity s /\
  calibrationFactor s' = calibrationFactor s.
Proof.
  revert s hw.
  induction cs as [|c cs IH]; intros s hw Hall H.
  - simpl in H. injection H as <- <-. auto.
  - cbn [forallb] in Hall. apply andb_prop in Hall as [Hc Hall].
    apply negb_true_iff in Hc. cbn [run] in H.
    destruct (after c s hw) as [[s1 hw1]|] eqn:E; [|discriminate].
    destruct (after_settings c s hw s1 hw1 Hc E) as (Hz & Hcal & Hsens).
    destruct (IH s1 hw1 Hall H) as (Hz' & Hsens' & Hcal').
    rewrite Hz', Hsens', Hcal'. auto.
Qed.

Lemma settings_change_only_by_setters_witness :
  zeroDustVoltage ready_state = lit 6 10 /\
  sensitivity ready_state = lit 5 10 /\
  calibrationFactor ready_state = of_int 1.
Proof.
  destruct (run (replicate 11 (CallGetDustDensity 1 1)) scenario_sensor
              (constant_adc 100)) as [[s' hw']|] eqn:E.
  - pose proof (settings_change_only_by_setters
                  (replicate 11 (CallGetDustDensity 1 1)) scenario_sensor
                  (constant_adc 100) s' hw' eq_refl E) as H.
    unfold ready_state, ready_sensor. rewrite E. exact H.
  - vm_compute in E. discriminate E.
Defined.

(** X8. Whatever calls were made since construction, the value that
    [getBaselineCandidate] returns lies within the profile's zero-dust
    range, so passing it to [setBaseline] always leaves the baseline
    between [minZeroDustVoltage] and [maxZeroDustVoltage]. *)
Theorem candidate_within_profile (cs : list call) (ty : GP2YDustSensorType)
    (led pin n : Z) (vref : f32) (hw : hardware)
    (s : GP2YDustSensor) (hw' : hardware) :
  run cs (GP2YDustSensor_new ty led pin n vref) hw = Some (s, hw') ->
  let '(candidate, s1) := getBaselineCandidate s in
  let s2 := setBaseline candidate s1 in
  leb (minZeroDustVoltage s) candidate = true /\
  leb candidate (maxZeroDustVoltage s) = true /\
  leb (minZeroDustVoltage s2) (zeroDustVoltage s2) = true /\
  leb (zeroDustVoltage s2) (maxZeroDustVoltage s2) = true.
Proof.
  intros H.
  assert (tracked_in_range s /\ candidate_in_range s) as [[T1 T2] [C1 C2]].
  { eapply (run_invariant
              (fun s => tracked_in_range s /\ candidate_in_range s)
              after_tracker_ranges); [|exact H].
    split; [apply tracked_in_range_new | apply candidate_in_range_new]. }
  unfold getBaselineCandidate.
  destruct (hasBaselineCandidate s); simpl; auto.
Qed.

Lemma candidate_within_profile_witness :
  leb (minZeroDustVoltage ready_state) (fst (getBaselineCandidate ready_state))
  = true /\
  leb (fst (getBaselineCandidate ready_state)) (maxZeroDustVoltage ready_state)
  = true.
Proof.
  destruct (run (replicate 11 (CallGetDustDensity 1 1)) scenario_sensor
              (constant_adc 100)) as [[s' hw']|] eqn:E.
  - pose proof (candidate_within_profile _ GP2Y1014AU0F 2 0
                  default_runningAverageCount default_voltageReference
                  (constant_adc 100) s' hw' E) as H.
    unfold ready_state, ready_sensor. rewrite E.
    destruct (getBaselineCandidate s') as [c s1].
    destruct H as (H1 & H2 & _). split; assumption.
  - vm_compute in E. discriminate E.
Defined.

(** ** More on the running-average window *)

Section WindowContents.

Lemma average_loop_empty_tail (l : list Z) (n : nat) :
  forall ra sc,
    average_loop (l ++ replicate n (-1)) ra sc = average_loop l ra sc.
Proof.
  induction l as [|x l IH]; intros ra sc; simpl.
  - induction n as [|n IHn]; simpl; auto.
  - destruct (x =? -1); apply IH.
Qed.

Lemma average_of_slots_empty_tail (l : list Z) (n : nat) :
  average_of_slots (l ++ replicate n (-1)) = average_of_slots l.
Proof. unfold average_of_slots. rewrite average_loop_empty_tail. reflexivity. Qed.

Lemma Zrange_In (n : nat) :
  forall start v, start <= v < start + Z.of_nat n -> In v (Zrange start n).
Proof.
  induction n as [|n IH]; intros start v Hv; [lia|].
  cbn [Zrange]. destruct (Z.eq_dec v start) as [->|Hne].
  - left. reflexivity.
  - right. apply IH. lia.
Qed.

Lemma single_slot_exact_all (v : Z) :
  0 <= v <= 65534 -> single_slot_exact v = true.
Proof.
  intros Hv.
  assert (forallb single_slot_exact (Zrange 0 (Z.to_nat 65535)) = true) as H
    by (vm_compute; reflexivity).
  rewrite forallb_forall in H. apply H. apply Zrange_In. lia.
Qed.

Lemma dustDensity_range s voltage d :
  dustDensity s voltage = Some d -> 0 <= d <= 65535.
Proof.
  unfold dustDensity, F32.to_uint16.
  destruct (ltb voltage (zeroDustVoltage s)).
  - intros H. injection H as <-. lia.
  - destruct (trunc _) as [t|]; [|discriminate].
    destruct (0 <=? t) eqn:E1; destruct (t <=? 65535) eqn:E2;
      simpl; try discriminate.
    intros H. injection H as <-. lia.
Qed.

(** The ring: where the write index stands and what each slot holds after
    any number of pushes into an empty window of [n] slots. *)
Lemma push_all_ring (n : nat) (s : GP2YDustSensor) :
  runningAverageBuffer s = replicate n (-1) ->
  nextRunningAverageCounter s = 0 ->
  runningAverageCount s = Z.of_nat n ->
  (1 <= n)%nat ->
  forall vs : list Z,
    let s' := push_all vs s in
    window_ok s' /\
    nextRunningAverageCounter s' = Z.of_nat (length vs) mod Z.of_nat n /\
    (forall (i : nat) (v : Z),
        vs !! i = Some v ->
        (length vs <= i + n)%nat ->
        runningAverageBuffer s' !! Z.to_nat (Z.of_nat i mod Z.of_nat n)
        = Some (Ints.to_int16 v)) /\
    (forall j : nat,
        (length vs <= j < n)%nat ->
        runningAverageBuffer s' !! j = Some (-1)).
Proof.
  intros Hb Hi Hc Hn vs.
  induction vs as [|v vs IH] using rev_ind; cbn zeta.
  - simpl. split; [|split; [|split]].
    + unfold window_ok. rewrite Hb, Hi, Hc, length_replicate. lia.
    + rewrite Hi, Z.mod_0_l by lia. reflexivity.
    + intros i v0 H. discriminate H.
    + intros j Hj. rewrite Hb. apply lookup_replicate_2. lia.
  - cbn zeta in IH. destruct IH as (Hok & Hnext & Hrecent & Hrest).
    rewrite push_all_snoc.
    destruct (window_ok_update v (push_all vs s) Hok) as [Hok' Hlt].
    destruct (updateRunningAverage_window v (push_all vs s))
      as (Hb' & Hn' & Hc').
    rewrite push_all_count, Hc in Hn'.
    pose proof Hok as [Hrange Hlen]. rewrite push_all_count, Hc in Hrange, Hlen.
    assert (0 < Z.of_nat n) as Hpos by lia.
    split; [exact Hok'|]. split; [|split].
    + rewrite Hn', length_app, Hnext. cbn [length].
      replace (Z.of_nat (length vs + 1)) with (Z.of_nat (length vs) + 1) by lia.
      rewrite <- (Zplus_mod_idemp_l (Z.of_nat (length vs))).
      pose proof (Z.mod_pos_bound (Z.of_nat (length vs)) (Z.of_nat n) Hpos).
      destruct (Z.geb_spec (Z.of_nat (length vs) mod Z.of_nat n + 1)
                           (Z.of_nat n)).
      * replace (Z.of_nat (length vs) mod Z.of_nat n + 1) with (Z.of_nat n)
          by lia.
        rewrite Z.mod_same by lia. reflexivity.
      * rewrite (Z.mod_small (Z.of_nat (length vs) mod Z.of_nat n + 1))
          by lia.
        reflexivity.
    + intros i v0 Hlook Hwin. rewrite length_app in Hwin. cbn [length] in Hwin.
      rewrite Hb', Hnext.
      destruct (Nat.eq_dec i (length vs)) as [->|Hne].
      * rewrite lookup_app_r, Nat.sub_diag in Hlook by lia.
        injection Hlook as <-.
        apply list_lookup_insert_eq. rewrite <- Hnext. exact Hlt.
      * assert (i < length vs)%nat as Hil.
        { apply lookup_lt_Some in Hlook. rewrite length_app in Hlook.
          cbn [length] in Hlook. lia. }
        rewrite lookup_app_l in Hlook by exact Hil.
        rewrite list_lookup_insert_ne; [apply Hrecent; [exact Hlook|lia]|].
        intros Heq. apply Z2Nat.inj in Heq;
          try (apply Z.mod_pos_bound; lia).
        assert ((Z.of_nat (length vs) - Z.of_nat i) mod Z.of_nat n = 0) as H0.
        { rewrite Zminus_mod, Heq, Z.sub_diag. apply Z.mod_0_l. lia. }
        rewrite Z.mod_small in H0 by lia. lia.
    + intros j Hj. rewrite length_app in Hj. cbn [length] in Hj.
      rewrite Hb', Hnext, Z.mod_small, Nat2Z.id by lia.
      rewrite list_lookup_insert_ne by lia. apply Hrest. lia.
Qed.

End WindowContents.

(** X9. While fewer values than its capacity were pushed into a fresh
    window, the slots still empty are left out of the sum and of the
    divisor: the average is that of the pushed values alone, and it is 0
    before the first push. *)
Theorem partial_window_average (ty : GP2YDustSensorType) (led pin : Z)
    (vref : f32) (c : Z) (vs : list Z) :
  Z.of_nat (length vs) < c ->
  let s0 := GP2YDustSensor_new ty led pin c vref in
  getRunningAverage (push_all vs s0)
  = (average_of_slots (map Ints.to_int16 vs), push_all vs s0) /\
  getRunningAverage s0 = (0, s0).
Proof.
  intros Hlen s0.
  assert (forall ws : list Z,
             Z.of_nat (length ws) < c ->
             getRunningAverage (push_all ws s0)
             = (average_of_slots (map Ints.to_int16 ws), push_all ws s0)) as H.
  { intros ws Hws.
    rewrite getRunningAverage_enabled
      by (rewrite push_all_count; simpl; lia).
    destruct (push_all_partial (Z.to_nat c) s0 ws) as [Hb _].
    - simpl. destruct (Z.eqb_spec c 0); [lia | reflexivity].
    - reflexivity.
    - simpl. lia.
    - lia.
    - rewrite Hb, average_of_slots_empty_tail. reflexivity. }
  split; [apply H, Hlen|].
  apply (H []). simpl. lia.
Qed.

Lemma partial_window_average_witness :
  fst (getRunningAverage (push_all [10; 20] scenario_sensor)) = 15.
Proof.
  pose proof (proj1 (partial_window_average GP2Y1014AU0F 2 0
                       default_voltageReference 60 [10; 20] ltac:(simpl; lia)))
    as H.
  change (GP2YDustSensor_new GP2Y1014AU0F 2 0 60 default_voltageReference)
    with scenario_sensor in H.
  rewrite H. reflexivity.
Defined.

(** X10. The first reading of a freshly constructed sensor with a window
    is also its running average: whatever density below 65535 the reading
    returns, [getRunningAverage] returns the same number right after. *)
Theorem first_reading_is_the_average (ty : GP2YDustSensorType)
    (led pin : Z) (vref : f32) (c : Z) (fuel : nat) (n : Z) (hw : hardware)
    (d : Z) (s' : GP2YDustSensor) (hw' : hardware) :
  1 <= c ->
  getDustDensity fuel n (GP2YDustSensor_new ty led pin c vref) hw
  = Returns d s' hw' ->
  d <> 65535 ->
  getRunningAverage s' = (d, s').
Proof.
  intros Hc E Hd. set (s0 := GP2YDustSensor_new ty led pin c vref) in *.
  apply getDustDensity_state in E as (total & _ & _ & Hdens & Hs').
  apply dustDensity_range in Hdens.
  set (v := scaledVoltage s0 _) in *.
  assert ((runningAverageCount s0 =? 0) = false) as Hcount
    by (apply Z.eqb_neq; simpl; lia).
  rewrite Hcount in Hs'.
  assert (runningAverageBuffer s'
          = Ints.to_int16 d :: replicate (Z.to_nat c - 1) (-1)) as Hbuf.
  { rewrite Hs'.
    destruct (countReading_frame (updateRunningAverage d (trackMinimum v s0)))
      as (_ & _ & (-> & _) & _).
    destruct (updateRunningAverage_window d (trackMinimum v s0)) as (-> & _).
    destruct (trackMinimum_frame v s0) as (_ & _ & (-> & ->) & _).
    simpl. destruct (Z.eqb_spec c 0); [lia|].
    replace (Z.to_nat c) with (S (Z.to_nat c - 1)) at 1 by lia.
    reflexivity. }
  assert (runningAverageCount s' <> 0) as Hc'.
  { rewrite Hs'.
    destruct (countReading_frame (updateRunningAverage d (trackMinimum v s0)))
      as ((_ & _ & _ & _ & _ & _ & _ & ->) & _).
    destruct (updateRunningAverage_window d (trackMinimum v s0))
      as (_ & _ & ->).
    destruct (trackMinimum_frame v s0)
      as ((_ & _ & _ & _ & _ & _ & _ & ->) & _).
    simpl. lia. }
  rewrite (getRunningAverage_enabled s' Hc'), Hbuf.
  change (Ints.to_int16 d :: replicate (Z.to_nat c - 1) (-1))
    with ([Ints.to_int16 d] ++ replicate (Z.to_nat c - 1) (-1)).
  rewrite average_of_slots_empty_tail.
  pose proof (single_slot_exact_all d ltac:(lia)) as Hx.
  unfold single_slot_exact in Hx. apply Z.eqb_eq in Hx. rewrite Hx.
  reflexivity.
Qed.

Lemma first_reading_is_the_average_witness :
  match getDustDensity 1 1 scenario_sensor (constant_adc 400) with
  | Returns d s' _ => d = 270 /\ getRunningAverage s' = (270, s')
  | _ => False
  end.
Proof.
  destruct (getDustDensity 1 1 scenario_sensor (constant_adc 400))
    as [d s' hw'| |] eqn:E; try (vm_compute in E; discriminate E).
  assert (d = 270) as -> by (vm_compute in E; congruence).
  split; [reflexivity|].
  apply (first_reading_is_the_average GP2Y1014AU0F 2 0
           default_voltageReference 60 1%nat 1 (constant_adc 400) 270 s' hw');
    [lia | exact E | lia].
Defined.

(** X11. The window is a ring.  After any number of pushes into a fresh
    window of capacity [c >= 1] the write index is the number of pushes
    modulo [c], each of the last [c] values pushed sits, reduced to
    [int16_t], in the slot numbered by its position modulo [c], and the
    slots not yet reached still hold [-1]. *)
Theorem ring_holds_most_recent (ty : GP2YDustSensorType) (led pin : Z)
    (vref : f32) (c : Z) (vs : list Z) :
  1 <= c ->
  let s := push_all vs (GP2YDustSensor_new ty led pin c vref) in
  nextRunningAverageCounter s = Z.of_nat (length vs) mod c /\
  (forall (i : nat) (v : Z),
      vs !! i = Some v ->
      Z.of_nat (length vs) <= Z.of_nat i + c ->
      runningAverageBuffer s !! Z.to_nat (Z.of_nat i mod c)
      = Some (Ints.to_int16 v)) /\
  (forall j : nat,
      Z.of_nat (length vs) <= Z.of_nat j < c ->
      runningAverageBuffer s !! j = Some (-1)).
Proof.
  intros Hc s.
  destruct (push_all_ring (Z.to_nat c) (GP2YDustSensor_new ty led pin c vref))
    with (vs := vs) as (_ & Hnext & Hrecent & Hrest).
  - simpl. destruct (Z.eqb_spec c 0); [lia | reflexivity].
  - reflexivity.
  - simpl. lia.
  - lia.
  - rewrite Z2Nat.id in Hnext, Hrecent by lia.
    split; [exact Hnext|]. split.
    + intros i v Hv Hwin. apply Hrecent; [exact Hv | lia].
    + intros j Hj. apply Hrest. lia.
Qed.

Lemma ring_holds_most_recent_witness :
  runningAverageBuffer (push_all [1; 2; 3; 4; 5] (fresh_window 3)) !! 1%nat
  = Some 5 /\
  nextRunningAverageCounter (push_all [1; 2; 3; 4; 5] (fresh_window 3)) = 2.
Proof.
  destruct (ring_holds_most_recent GP2Y1014AU0F 2 0 default_voltageReference
              3 [1; 2; 3; 4; 5] ltac:(lia)) as (Hnext & Hrecent & _).
  split.
  - exact (Hrecent 4%nat 5 eq_refl ltac:(simpl; lia)).
  - exact Hnext.
Defined.

(** ** The density under the default settings *)

Section DefaultDensity.

Lemma raw_sum_ten_bit (input : nat -> Z) (k : nat) :
  (forall j, 0 <= input j <= 1023) ->
  forall start, 0 <= raw_sum input start k <= 1023 * Z.of_nat k.
Proof.
  intros Hin. induction k as [|k IH]; intros start; cbn [raw_sum]; [lia|].
  rewrite (to_uint16_small (input start)) by (specialize (Hin start); lia).
  specialize (Hin start). specialize (IH (S start)). lia.
Qed.

(** The mean of 10-bit samples is a 10-bit value. *)
Lemma avgRaw_ten_bit (hw : hardware) (n : Z) :
  ten_bit hw -> 1 <= n ->
  0 <= Ints.to_uint16 (raw_sum (adc hw) (reads hw) (Z.to_nat n) / n) <= 1023.
Proof.
  intros Hhw Hn.
  pose proof (raw_sum_ten_bit (adc hw) (Z.to_nat n) Hhw (reads hw)) as Hs.
  rewrite Z2Nat.id in Hs by lia.
  assert (0 <= raw_sum (adc hw) (reads hw) (Z.to_nat n) / n <= 1023) as Hq.
  { split.
    - apply Z.div_pos; lia.
    - apply Z.div_le_upper_bound; lia. }
  rewrite to_uint16_small; lia.
Qed.

Lemma default_density_eq (s : GP2YDustSensor) (avgRaw : Z) :
  default_settings s ->
  dustDensity s (scaledVoltage s avgRaw)
  = default_density
      (if SFeqb (zeroDustVoltage s) (lit 9 10) then GP2Y1010AU0F
       else GP2Y1014AU0F) avgRaw.
Proof.
  intros (Hv & Hc & Hs & Hz).
  unfold default_density, dustDensity, scaledVoltage.
  rewrite Hv, Hc, Hs.
  destruct Hz as [-> | ->]; reflexivity.
Qed.

Lemma density_steps (ty : GP2YDustSensorType) (a : Z) :
  0 <= a <= 1022 ->
  exists d d',
    default_density ty a = Some d /\
    default_density ty (a + 1) = Some d' /\
    0 <= d <= d' /\ d' <= density_bound ty.
Proof.
  intros Ha.
  assert (forallb (density_step_ok ty) (Zrange 0 1023) = true) as H
    by (destruct ty; vm_compute; reflexivity).
  rewrite forallb_forall in H.
  specialize (H a (Zrange_In 1023 0 a ltac:(lia))).
  unfold density_step_ok in H.
  destruct (default_density ty a) as [d|]; [|discriminate].
  destruct (default_density ty (a + 1)) as [d'|]; [|discriminate].
  apply andb_prop in H as [H H3]. apply andb_prop in H as [H1 H2].
  exists d, d'. repeat split; auto; lia.
Qed.

Lemma density_defined (ty : GP2YDustSensorType) (a : Z) :
  0 <= a <= 1023 ->
  exists d, default_density ty a = Some d /\ 0 <= d <= density_bound ty.
Proof.
  intros Ha. destruct (Z.eq_dec a 1023) as [->|Hne].
  - destruct (density_steps ty 1022) as (d & d' & _ & H & Hd & Hb); [lia|].
    exists d'. split; [exact H | lia].
  - destruct (density_steps ty a) as (d & d' & H & _ & Hd & Hb); [lia|].
    exists d. split; [exact H | lia].
Qed.

Lemma density_monotone_from (ty : GP2YDustSensorType) (a : Z) (k : nat) :
  0 <= a -> a + Z.of_nat k <= 1023 ->
  exists da db,
    default_density ty a = Some da /\
    default_density ty (a + Z.of_nat k) = Some db /\ da <= db.
Proof.
  intros Ha. induction k as [|k IH]; intros Hb.
  - destruct (density_defined ty a) as (d & H & _); [lia|].
    exists d, d. rewrite Z.add_0_r. repeat split; auto; lia.
  - destruct IH as (da & dm & H1 & H2 & Hle); [lia|].
    destruct (density_steps ty (a + Z.of_nat k))
      as (d & d' & H3 & H4 & Hd & _); [lia|].
    rewrite H2 in H3. injection H3 as <-.
    exists da, d'. split; [exact H1|]. split; [|lia].
    rewrite <- H4. f_equal. lia.
Qed.

End DefaultDensity.

(** X12. With the settings the constructor leaves (5.0 V reference,
    sensitivity 0.5, calibration 1, typical baseline) and a 10-bit
    converter, a reading of 1 to 255 samples always returns: the
    conversion to [uint16_t] is defined and the density is at most 879. *)
Theorem default_reading_returns (n : Z) (extra : nat) (s : GP2YDustSensor)
    (hw : hardware) :
  default_settings s ->
  ten_bit hw ->
  1 <= n <= 255 ->
  exists d s' hw',
    getDustDensity (Z.to_nat n + extra) n s hw = Returns d s' hw' /\
    0 <= d <= 879.
Proof.
  intros Hs Hhw Hn.
  pose proof (avgRaw_ten_bit hw n Hhw ltac:(lia)) as Ha.
  set (ty := if SFeqb (zeroDustVoltage s) (lit 9 10) then GP2Y1010AU0F
             else GP2Y1014AU0F).
  destruct (density_defined ty _ Ha) as (d & Hd & Hb).
  destruct (getDustDensity_converts n extra s hw d Hn) as (s' & hw' & H).
  { unfold meanVoltage. rewrite (default_density_eq s _ Hs). exact Hd. }
  exists d, s', hw'. split; [exact H|].
  destruct ty; simpl in Hb; lia.
Qed.

Lemma default_reading_returns_witness :
  exists d s' hw',
    getDustDensity 1 1 scenario_sensor (constant_adc 1023) = Returns d s' hw' /\
    0 <= d <= 879.
Proof.
  apply (default_reading_returns 1 0 scenario_sensor (constant_adc 1023)).
  - unfold default_settings. simpl. auto.
  - intros k. simpl. lia.
  - lia.
Defined.

(** X13. Under the same settings the density does not decrease when the
    raw mean grows, over the whole 10-bit range. *)
Theorem default_density_monotone (s : GP2YDustSensor) (a b : Z) :
  default_settings s ->
  0 <= a -> a <= b -> b <= 1023 ->
  exists da db,
    dustDensity s (scaledVoltage s a) = Some da /\
    dustDensity s (scaledVoltage s b) = Some db /\
    da <= db.
Proof.
  intros Hs Ha Hab Hb.
  rewrite !(default_density_eq s _ Hs).
  replace b with (a + Z.of_nat (Z.to_nat (b - a))) by lia.
  apply density_monotone_from; lia.
Qed.

Lemma default_density_monotone_witness :
  exists da db,
    dustDensity scenario_sensor (scaledVoltage scenario_sensor 123) = Some da /\
    dustDensity scenario_sensor (scaledVoltage scenario_sensor 400) = Some db /\
    da <= db.
Proof.
  apply (default_density_monotone scenario_sensor 123 400); try lia.
  unfold default_settings. simpl. auto.
Defined.

(** X14. A scaled voltage strictly below the baseline gives density 0
    whatever the sensitivity is, zero, negative or NaN included: the
    comparison is made before the division. *)
Theorem density_clamped_below_baseline (n : Z) (extra : nat)
    (s : GP2YDustSensor) (hw : hardware) :
  1 <= n <= 255 ->
  ltb (meanVoltage s hw n) (zeroDustVoltage s) = true ->
  exists s' hw',
    getDustDensity (Z.to_nat n + extra) n s hw = Returns 0 s' hw'.
Proof.
  intros Hn Hlt. apply getDustDensity_converts; [exact Hn|].
  unfold dustDensity. rewrite Hlt. reflexivity.
Qed.

Lemma density_clamped_below_baseline_witness :
  exists s' hw',
    getDustDensity 1 1 (setSensitivity S754_nan scenario_sensor)
      (constant_adc 100) = Returns 0 s' hw'.
Proof.
  apply (density_clamped_below_baseline 1 0
           (setSensitivity S754_nan scenario_sensor) (constant_adc 100)).
  - lia.
  - vm_compute. reflexivity.
Defined.

(** X15. With a NaN calibration factor every comparison on the scaled
    voltage fails: the tracked minimum is left alone, the clamp is not
    taken and the density is the conversion of a NaN, so a reading of 1 to
    255 samples is undefined. *)
Theorem nan_calibration_undefined (n : Z) (extra : nat)
    (s : GP2YDustSensor) (hw : hardware) :
  calibrationFactor s = S754_nan ->
  1 <= n <= 255 ->
  meanVoltage s hw n = S754_nan /\
  trackMinimum (meanVoltage s hw n) s = s /\
  getDustDensity (Z.to_nat n + extra) n s hw = Undefined.
Proof.
  intros Hc Hn.
  assert (forall a, scaledVoltage s a = S754_nan) as Hv.
  { intros a. unfold scaledVoltage. rewrite Hc.
    destruct (mul (of_int a) (div (vRef s) (of_int 1024))); reflexivity. }
  split; [apply Hv|]. split.
  - unfold meanVoltage. rewrite Hv. reflexivity.
  - destruct (sample_loop_from_zero s n extra hw Hn) as (hw' & Hrun & _).
    unfold getDustDensity, processSamples. rewrite Hrun.
    destruct (Z.eqb_spec n 0); [lia|].
    rewrite Hv. reflexivity.
Qed.

Lemma nan_calibration_undefined_witness :
  getDustDensity 1 1 (setCalibrationFactor S754_nan scenario_sensor)
    (constant_adc 400) = Undefined.
Proof.
  exact (proj2 (proj2 (nan_calibration_undefined 1 0
                         (setCalibrationFactor S754_nan scenario_sensor)
                         (constant_adc 400) eq_refl ltac:(lia)))).
Defined.

(** ** The tracked minimum as a running minimum *)

Section RunningMinimum.





End RunningMinimum.



(** X17. The sampling loop cannot count to 256 or beyond: for every
    [numSamples] from 256 on, on every sensor and board and for every
    amount of fuel, [getDustDensity] is still sampling and has taken one
    conversion per unit of fuel. *)
Theorem large_sample_counts_never_return (n : Z) (fuel : nat)
    (s : GP2YDustSensor) (hw : hardware) :
  256 <= n ->
  exists hw',
    getDustDensity fuel n s hw = StillSampling hw' /\
    reads hw' = (reads hw + fuel)%nat /\
    samples_in (trace hw') = samples_in (trace hw) + Z.of_nat fuel.
Proof.
  intros Hn.
  destruct (sample_loop_never_exits s n fuel 0 0 hw)
    as (i' & total' & hw' & Hrun & Hr & Hs); try lia.
  exists hw'. unfold getDustDensity. rewrite Hrun. auto.
Qed.

Lemma large_sample_counts_never_return_witness :
  exists hw',
    getDustDensity 1000 65535 scenario_sensor (constant_adc 400)
    = StillSampling hw' /\
    reads hw' = 1000%nat.
Proof.
  destruct (large_sample_counts_never_return 65535 1000 scenario_sensor
              (constant_adc 400) ltac:(lia)) as (hw' & H & Hr & _).
  exists hw'. split; [exact H | exact Hr].
Defined.

(** ** The empty marker among the values *)

Section Sentinel.

Lemma to_int16_congruent (v : Z) :
  (Ints.to_int16 v) mod 65536 = v mod 65536.
Proof.
  unfold Ints.to_int16.
  rewrite Zminus_mod, Zmod_mod, <- Zminus_mod.
  f_equal. lia.
Qed.

(** The slots of a fresh window after at most [c] pushes. *)
Lemma push_all_fresh_buffer (ty : GP2YDustSensorType) (led pin : Z)
    (vref : f32) (c : Z) (vs : list Z) :
  1 <= c -> Z.of_nat (length vs) <= c ->
  runningAverageBuffer (push_all vs (GP2YDustSensor_new ty led pin c vref))
  = map Ints.to_int16 vs ++ replicate (Z.to_nat c - length vs) (-1).
Proof.
  intros Hc Hlen. set (s0 := GP2YDustSensor_new ty led pin c vref).
  assert (runningAverageBuffer s0 = replicate (Z.to_nat c) (-1)) as Hb
    by (simpl; destruct (Z.eqb_spec c 0); [lia | reflexivity]).
  assert (runningAverageCount s0 = Z.of_nat (Z.to_nat c)) as Hn
    by (simpl; lia).
  destruct (Z.eq_dec (Z.of_nat (length vs)) c) as [Heq|Hne].
  - destruct (push_all_full (Z.to_nat c) s0 vs Hb eq_refl Hn) as [-> _];
      [lia | lia |].
    replace (Z.to_nat c - length vs)%nat with 0%nat by lia.
    rewrite app_nil_r. reflexivity.
  - destruct (push_all_partial (Z.to_nat c) s0 vs Hb eq_refl Hn) as [-> _];
      [lia | reflexivity].
Qed.

Lemma getRunningAverage_fresh (ty : GP2YDustSensorType) (led pin : Z)
    (vref : f32) (c : Z) (vs : list Z) :
  1 <= c -> Z.of_nat (length vs) <= c ->
  fst (getRunningAverage
         (push_all vs (GP2YDustSensor_new ty led pin c vref)))
  = average_of_slots (map Ints.to_int16 vs).
Proof.
  intros Hc Hlen.
  rewrite getRunningAverage_enabled
    by (rewrite push_all_count; simpl; lia).
  cbn [fst].
  rewrite push_all_fresh_buffer, average_of_slots_empty_tail by lia.
  reflexivity.
Qed.

Lemma opposite_slots_cancel_all (v : Z) :
  32769 <= v <= 65534 -> opposite_slots_cancel v = true.
Proof.
  intros Hv.
  assert (forallb opposite_slots_cancel (Zrange 32769 (Z.to_nat 32766))
          = true) as H by (vm_compute; reflexivity).
  rewrite forallb_forall in H. apply H. apply Zrange_In. lia.
Qed.

End Sentinel.

(** C10. [updateRunningAverage] stores its argument reduced modulo 2^16
    into an [int16_t] slot, so 65535 is stored as [-1], the empty marker.
    [getRunningAverage] then treats that slot as empty: pushing 65535 into
    a free slot leaves the slots and the reported average as they were,
    and after 65535 and a second value [w] the average is [w], the mean of
    one value.  A value [v] in [[32768, 65534]] is stored as [v - 65536]
    and enters the sum as that negative number: after [v] and [w] the
    average is the rounded binary32 quotient of [(v - 65536) + w] by 2, and
    [v] followed by [65536 - v] averages to 0. *)
Theorem sentinel_collision (ty : GP2YDustSensorType) (led pin : Z)
    (vref : f32) (c : Z) :
  2 <= c ->
  let s0 := GP2YDustSensor_new ty led pin c vref in
  (forall v s,
      runningAverageBuffer (updateRunningAverage v s)
      = <[Z.to_nat (nextRunningAverageCounter s) := Ints.to_int16 v]>
          (runningAverageBuffer s)) /\
  (forall v, -32768 <= Ints.to_int16 v < 32768 /\
             (Ints.to_int16 v) mod 65536 = v mod 65536) /\
  Ints.to_int16 65535 = -1 /\
  (forall vs,
      Z.of_nat (length vs) < c ->
      runningAverageBuffer (push_all (vs ++ [65535]) s0)
      = runningAverageBuffer (push_all vs s0) /\
      fst (getRunningAverage (push_all (vs ++ [65535]) s0))
      = fst (getRunningAverage (push_all vs s0))) /\
  (forall w,
      0 <= w <= 65534 ->
      fst (getRunningAverage (push_all [w] s0)) = w /\
      fst (getRunningAverage (push_all [65535; w] s0)) = w) /\
  (forall v w,
      32768 <= v <= 65534 ->
      Ints.to_int16 w <> -1 ->
      Ints.to_int16 v = v - 65536 /\
      fst (getRunningAverage (push_all [v; w] s0))
      = Ints.to_uint16
          (round (div (add (add (of_int 0) (of_int (v - 65536)))
                           (of_int (Ints.to_int16 w)))
                      (of_int 2)))) /\
  (forall v,
      32769 <= v <= 65534 ->
      fst (getRunningAverage (push_all [v; 65536 - v] s0)) = 0).
Proof.
  intros Hc s0.
  split; [intros v s; apply updateRunningAverage_window|].
  split; [intros v; split; [apply to_int16_range | apply to_int16_congruent]|].
  split; [reflexivity|].
  split; [|split; [|split]].
  - intros vs Hlen.
    assert (runningAverageBuffer (push_all (vs ++ [65535]) s0)
            = runningAverageBuffer (push_all vs s0)) as Hbuf.
    { subst s0. rewrite !push_all_fresh_buffer
        by (rewrite ?length_app; simpl; lia).
      rewrite map_app, length_app. cbn [map length].
      change (Ints.to_int16 65535) with (-1).
      replace (Z.to_nat c - length vs)%nat
        with (S (Z.to_nat c - (length vs + 1)))%nat by lia.
      rewrite <- app_assoc. reflexivity. }
    split; [exact Hbuf|].
    rewrite !getRunningAverage_enabled
      by (subst s0; rewrite push_all_count; simpl; lia).
    cbn [fst]. rewrite Hbuf. reflexivity.
  - intros w Hw.
    pose proof (single_slot_exact_all w Hw) as Hx.
    unfold single_slot_exact in Hx. apply Z.eqb_eq in Hx.
    subst s0. rewrite !getRunningAverage_fresh by (simpl; lia).
    split; [exact Hx|].
    cbn [map]. change (Ints.to_int16 65535) with (-1).
    unfold average_of_slots in *. cbn [average_loop].
    change (-1 =? -1) with true. cbv iota. exact Hx.
  - intros v w Hv Hw.
    rewrite (to_int16_high v) by lia.
    split; [reflexivity|].
    subst s0. rewrite getRunningAverage_fresh by (simpl; lia).
    cbn [map]. rewrite (to_int16_high v) by lia.
    unfold average_of_slots. cbn [average_loop].
    destruct (Z.eqb_spec (v - 65536) (-1)) as [|_]; [lia|].
    destruct (Z.eqb_spec (Ints.to_int16 w) (-1)) as [|_]; [contradiction|].
    reflexivity.
  - intros v Hv.
    pose proof (opposite_slots_cancel_all v Hv) as Hx.
    unfold opposite_slots_cancel in Hx. apply Z.eqb_eq in Hx.
    subst s0. rewrite getRunningAverage_fresh by (simpl; lia).
    exact Hx.
Qed.

Lemma sentinel_collision_witness :
  fst (getRunningAverage (push_all [65535; 10] (fresh_window 2))) = 10 /\
  fst (getRunningAverage (push_all [65534; 10] (fresh_window 2))) = 4 /\
  fst (getRunningAverage (push_all [40000; 25536] (fresh_window 2))) = 0.
Proof.
  destruct (sentinel_collision GP2Y1014AU0F 2 0 default_voltageReference 2
              ltac:(lia)) as (_ & _ & _ & _ & Hw & Hneg & Hcancel).
  split; [exact (proj2 (Hw 10 ltac:(lia)))|].
  split.
  - unfold fresh_window.
    rewrite (proj2 (Hneg 65534 10 ltac:(lia) ltac:(vm_compute; discriminate))).
    vm_compute. reflexivity.
  - exact (Hcancel 40000 ltac:(lia)).
Defined.
